(** * ama-chatbot: retrieval and prompt assembly over a spreadsheet store

    A shallow embedding of [ama-chatbot.py].  Python values are modelled as
    follows.

    - [str] is [string]; one [ascii] stands for one character whose code
      point is below 256.
    - [int] is [Z] (token counts) or [nat] (row and column numbers, lengths).
    - a raised exception is the [Raise] case of [result].
    - a worksheet is a finite map from (row, column) to the cell text.
    - everything that lives outside the file (floating-point numbers and
      their printing, numpy, the sorting routine of pandas, the two
      embedding backends, the completion service, the GPT-2 tokenizer) is a
      field of the class [Runtime]. *)

From Stdlib Require Import ZArith Ascii String List Lia Permutation Sorted.
From Stdlib Require Import DecimalString DecimalZ QArith.
From stdpp Require Import gmap strings sorting.

(** ** Python runtime: exceptions and built-in string methods *)

Module Py.

(** The exception classes that the modelled code can raise; the last three
    come from [gspread], from the remote services and from loading a local
    model. *)
Inductive exn : Type :=
  | TypeError
  | ValueError
  | KeyError
  | UnboundLocalError
  | WorksheetNotFound
  | APIError
  | OSError.

Inductive result (A : Type) : Type :=
  | OK (a : A)
  | Raise (e : exn).
Arguments OK {A} a.
Arguments Raise {A} e.

Definition bind {A B} (m : result A) (k : A → result B) : result B :=
  match m with
  | OK a => k a
  | Raise e => Raise e
  end.

Definition raised {A} (m : result A) : Prop := ∃ e, m = Raise e.

(** [[f(x) for x in xs]], [Series.apply(f)]: elements are visited from the
    left and the first exception aborts the whole traversal. *)
Fixpoint traverse {A B} (f : A → result B) (xs : list A) : result (list B) :=
  match xs with
  | [] => OK []
  | x :: xs' =>
      bind (f x) (λ y, bind (traverse f xs') (λ ys, OK (y :: ys)))
  end.

(** *** Characters *)

(** [c.isspace()] for a character below 256: TAB..CR, FS..US, space, NEL
    and the no-break space. *)
Definition isspace (c : ascii) : bool :=
  let n := nat_of_ascii c in
  ((9 <=? n) && (n <=? 13)) || ((28 <=? n) && (n <=? 32))
  || (n =? 133) || (n =? 160).

Definition ascii_eqb (a b : ascii) : bool := Ascii.eqb a b.

(** [c in chars] *)
Fixpoint mem (c : ascii) (chars : string) : bool :=
  match chars with
  | EmptyString => false
  | String d rest => ascii_eqb c d || mem c rest
  end.

Definition is_empty (s : string) : bool :=
  match s with EmptyString => true | _ => false end.

(** *** Predicates on strings *)

(** Every character of [s] satisfies [q]. *)
Fixpoint all_chars (q : ascii → bool) (s : string) : bool :=
  match s with
  | EmptyString => true
  | String c t => q c && all_chars q t
  end.

(** The first character of [s] satisfies [p]. *)
Definition starts_with (p : ascii → bool) (s : string) : bool :=
  match s with
  | EmptyString => false
  | String c _ => p c
  end.

(** The last character of [s] satisfies [p]. *)
Fixpoint ends_with (p : ascii → bool) (s : string) : bool :=
  match s with
  | EmptyString => false
  | String c EmptyString => p c
  | String _ t => ends_with p t
  end.

(** [s] neither starts nor ends with a character that satisfies [p]. *)
Definition edge_free (p : ascii → bool) (s : string) : Prop :=
  starts_with p s = false ∧ ends_with p s = false.

(** [s] is not empty and holds no white space, bracket or comma: the
    shape of the text that [repr] gives for a [float]. *)
Definition literal_text (s : string) : bool :=
  negb (is_empty s)
  && all_chars (λ c, negb (isspace c || mem c "[],")) s.

(** *** [str.strip] *)

Fixpoint lstrip_with (p : ascii → bool) (s : string) : string :=
  match s with
  | EmptyString => EmptyString
  | String c t => if p c then lstrip_with p t else s
  end.

Fixpoint rstrip_with (p : ascii → bool) (s : string) : string :=
  match s with
  | EmptyString => EmptyString
  | String c t =>
      let t' := rstrip_with p t in
      if is_empty t' && p c then EmptyString else String c t'
  end.

Definition strip_with (p : ascii → bool) (s : string) : string :=
  rstrip_with p (lstrip_with p s).

(** [s.strip()] *)
Definition strip (s : string) : string := strip_with isspace s.

(** [s.strip(chars)] *)
Definition strip_chars (chars s : string) : string :=
  strip_with (λ c, mem c chars) s.

(** *** [str.replace], [str.split], [str.join] *)

(** [s.replace(old, new)] for one-character [old] and [new]. *)
Fixpoint replace (old new : ascii) (s : string) : string :=
  match s with
  | EmptyString => EmptyString
  | String c t =>
      String (if ascii_eqb c old then new else c) (replace old new t)
  end.

(** [s.split(sep)] for a one-character separator; the result is never
    empty, [''.split(',')] is [['']]. *)
Fixpoint split (sep : ascii) (s : string) : list string :=
  match s with
  | EmptyString => [EmptyString]
  | String c t =>
      if ascii_eqb c sep then EmptyString :: split sep t
      else match split sep t with
           | w :: ws => String c w :: ws
           | [] => [String c EmptyString]
           end
  end.

(** [s.count(c)] for a one-character [c]. *)
Fixpoint count (c : ascii) (s : string) : nat :=
  match s with
  | EmptyString => 0
  | String d t => (if ascii_eqb d c then 1 else 0) + count c t
  end.

(** [sep.join(parts)] *)
Fixpoint join (sep : string) (parts : list string) : string :=
  match parts with
  | [] => EmptyString
  | [p] => p
  | p :: rest => p +:+ sep +:+ join sep rest
  end.

(** [''.join(parts)] *)
Definition concat (parts : list string) : string :=
  fold_right String.append EmptyString parts.

(** *** [str(n)] for an [int] and digits *)

Definition str_int (z : Z) : string := NilZero.string_of_int (Z.to_int z).

Definition digit (n : nat) : ascii := ascii_of_nat (48 + n).

Definition isdigit (c : ascii) : bool :=
  let n := nat_of_ascii c in (48 <=? n) && (n <=? 57).

(** *** [int(s)] for a string *)

(** The characters that [int] and [float] skip around a literal: TAB..CR,
    the blank, NEL and the no-break space (not FS..US, which [str.strip]
    does remove). *)
Definition int_space (c : ascii) : bool :=
  let n := nat_of_ascii c in
  ((9 <=? n) && (n <=? 13)) || (n =? 32) || (n =? 133) || (n =? 160).

(** Where the scan of the digits stands. *)
Inductive digit_state : Type := AtStart | AfterDigit | AfterUnderscore.

(** The digits of a literal, its underscores left out: a literal is a run
    of digits with single underscores between digits only. *)
Fixpoint int_digits (prev : digit_state) (s : string) : option string :=
  match s with
  | EmptyString =>
      match prev with AfterDigit => Some EmptyString | _ => None end
  | String c t =>
      if isdigit c then option_map (String c) (int_digits AfterDigit t)
      else if ascii_eqb c "_" then
        match prev with
        | AfterDigit => int_digits AfterUnderscore t
        | _ => None
        end
      else None
  end.

(** [sys.get_int_max_str_digits()] *)
Definition int_max_str_digits : nat := 4300.

(** [int(s)]: white space around the literal is skipped, one sign may come
    first, and a literal of more than [int_max_str_digits] digits is
    refused. *)
Definition py_int (s : string) : result Z :=
  let t := strip_with int_space s in
  let '(negative, body) :=
    match t with
    | String c r =>
        if ascii_eqb c "-" then (true, r)
        else if ascii_eqb c "+" then (false, r)
        else (false, t)
    | EmptyString => (false, t)
    end in
  match int_digits AtStart body with
  | None => Raise ValueError
  | Some ds =>
      if int_max_str_digits <? String.length ds then Raise ValueError
      else match NilEmpty.uint_of_string ds with
           | Some d => OK (if negative then - Z.of_uint d else Z.of_uint d)%Z
           | None => Raise ValueError
           end
  end.

End Py.

Import Py.

(** [x ← m; k] runs [m] and, unless it raised, continues with [k]. *)
Global Instance result_bind : MBind result := λ A B k m, Py.bind m k.
Global Instance result_ret : MRet result := λ A a, OK a.

Definition newline : ascii := "010"%char.

(** The one-character string that Python writes ["\n"]. *)
Definition nl : string := String newline EmptyString.

(** ** The spreadsheet behind [gspread] *)

Module Sheets.

(** A worksheet maps (row, column), both counted from 1, to the text of the
    cell.  A missing key and the empty string both stand for an empty cell. *)
Abbreviation worksheet := (gmap (nat * nat) string).

Definition cell (s : worksheet) (r c : nat) : string :=
  default EmptyString (s !! (r, c)).

(** [sheet.update_cell(r, c, v)] *)
Definition update_cell (r c : nat) (v : string) (s : worksheet) : worksheet :=
  <[(r, c) := v]> s.

(** The coordinates of the cells that hold some text. *)
Definition used (s : worksheet) : list (nat * nat) :=
  fst <$> filter (λ kv, kv.2 ≠ EmptyString) (map_to_list s).

Definition nrows (s : worksheet) : nat := max_list (fst <$> used s).
Definition ncols (s : worksheet) : nat := max_list (snd <$> used s).

(** [sheet.get_all_values()]: the rows from the first one down to the last
    row that holds text, every row filled up to the last column that holds
    text; an empty worksheet gives the empty list. *)
Definition get_all_values (s : worksheet) : list (list string) :=
  (λ r, (λ c, cell s r c) <$> seq 1 (ncols s)) <$> seq 1 (nrows s).

(** The workbook ['ama-chatbot-db'] with its two worksheets. *)
Record workbook : Type := Workbook {
  info : worksheet;   (* worksheet 'info' *)
  qa : worksheet      (* worksheet 'Q&A' *)
}.

(** [access_sheet(sheet_name)], read side: [gc.open(..).worksheet(name)]
    raises when the workbook has no worksheet of that name. *)
Definition access_sheet (sheet_name : string) (wb : workbook)
  : result worksheet :=
  if decide (sheet_name = "info") then OK (info wb)
  else if decide (sheet_name = "Q&A") then OK (qa wb)
  else Raise WorksheetNotFound.

(** Write side: the worksheet object is a handle on the remote sheet, so
    an update through it changes the workbook. *)
Definition store_sheet (sheet_name : string) (s : worksheet) (wb : workbook)
  : workbook :=
  if decide (sheet_name = "info") then Workbook s (qa wb)
  else if decide (sheet_name = "Q&A") then Workbook (info wb) s
  else wb.

End Sheets.

Import Sheets.

(** [pd.DataFrame(rows, columns=[...])]: every row must have as many cells
    as there are column names; no row at all is fine. *)
Definition DataFrame (rows : list (list string)) (columns : nat)
  : result (list (list string)) :=
  if forallb (λ r, length r =? columns) rows then OK rows
  else Raise ValueError.

(** ** Calendar dates *)

Record date : Type := Date { year : Z; month : Z; day : Z }.

Definition two_digits (n : Z) : string :=
  String (digit (Z.to_nat (n / 10 mod 10)))
    (String (digit (Z.to_nat (n mod 10))) EmptyString).

Definition four_digits (n : Z) : string :=
  String (digit (Z.to_nat (n / 1000 mod 10)))
    (String (digit (Z.to_nat (n / 100 mod 10))) (two_digits n)).

(** [datetime.datetime.strftime(d, '%Y-%m-%d')] for a date whose year has
    four digits. *)
Definition strftime_Ymd (d : date) : string :=
  four_digits (year d) +:+ "-" +:+ two_digits (month d) +:+ "-"
  +:+ two_digits (day d).

(** [s] reads [YYYY-MM-DD]: four digits, a dash, two digits, a dash, two
    digits. *)
Definition is_Ymd (s : string) : bool :=
  match s with
  | String y1 (String y2 (String y3 (String y4 (String h1
      (String m1 (String m2 (String h2
        (String d1 (String d2 EmptyString))))))))) =>
      isdigit y1 && isdigit y2 && isdigit y3 && isdigit y4
      && ascii_eqb h1 "-" && isdigit m1 && isdigit m2
      && ascii_eqb h2 "-" && isdigit d1 && isdigit d2
  | _ => false
  end.

(** ** What the program takes from its libraries *)

(** The arguments of [openai.Completion.create]. *)
Record completion_request : Type := CompletionRequest {
  prompt : string;
  temperature : Q;
  max_tokens : Z;
  top_p : Z;
  frequency_penalty : Z;
  presence_penalty : Z;
  model : string
}.

Class Runtime : Type := {
  (** Python's [float] *)
  float : Type;
  (** [repr(x)], which [str] of a list applies to every element *)
  float_repr : float → string;
  (** the numeric literal that [float(s)] reads once white space is
      stripped; [None] when the text is no literal *)
  float_literal : string → option float;
  (** [str(a)] of a one-dimensional numpy array *)
  ndarray_str : list float → string;
  (** [np.dot] of two one-dimensional arrays of the same length *)
  np_dot : list float → list float → float;
  (** [x <= y] on similarities *)
  float_le : float → float → Prop;
  (** [DataFrame.sort_values(by=key, ascending=False)] with the default
      [kind], followed by [reset_index(drop=True)] *)
  sort_values_desc : ∀ A : Type, (A → float) → list A → list A;
  (** [openai.Embedding.create(model=.., input=..)["data"][0]["embedding"]] *)
  openai_Embedding_create : string → string → result (list float);
  (** [SentenceTransformer(name).encode(text)] *)
  SentenceTransformer_encode : string → string → result (list float);
  (** [openai.Completion.create(..)["choices"][0]["text"]] *)
  openai_Completion_create : completion_request → result string;
  (** the GPT-2 tokenizer: [tokenizer.tokenize] and [tokenizer.encode] *)
  tokenizer_tokenize : string → list string;
  tokenizer_encode : string → list Z
}.
Arguments sort_values_desc {_ A} _ _.

(** ** The program *)

Section Program.
Context `{RT : Runtime}.

(** A value of the [embeddings] column that is a vector: the remote backend
    and [parse_numbers] give Python lists, the local backend gives numpy
    arrays. *)
Inductive vector : Type :=
  | PyList (xs : list float)
  | NdArray (xs : list float).

(** [np.array(v)] *)
Definition np_array (v : vector) : list float :=
  match v with PyList xs => xs | NdArray xs => xs end.

(** One row of the data frame built by [get_data].  [None] in
    [num_tokens] or [embeddings] is the empty string [''] that [get_data]
    keeps for an empty cell. *)
Record entry : Type := Entry {
  section : string;
  content : string;
  num_tokens : option Z;
  embeddings : option vector
}.

(** A row after [add_embeddings] added the column [combined]. *)
Record combined_entry : Type := CombinedEntry {
  base : entry;
  combined : string
}.

(** A row after [order_entries_by_similarity] added the column
    [similarity]. *)
Record ranked_entry : Type := Ranked {
  ranked : entry;
  similarity : float
}.

(** *** Reading and writing the store *)

(** [float(s)]: white space around the literal is ignored and the empty
    string is no literal. *)
Definition py_float (s : string) : result float :=
  let t := strip s in
  if is_empty t then Raise ValueError
  else match float_literal t with
       | Some x => OK x
       | None => Raise ValueError
       end.

Definition parse_numbers (s : string) : result (option vector) :=
  if negb (is_empty s) then
    xs ← traverse py_float (split "," (strip_chars "[]" s));
    OK (Some (PyList xs))
  else OK None.

(** [str(v)] for a value of the [embeddings] column. *)
Definition str_embeddings (v : option vector) : string :=
  match v with
  | Some (PyList xs) => "[" +:+ join ", " (float_repr <$> xs) +:+ "]"
  | Some (NdArray xs) => ndarray_str xs
  | None => EmptyString
  end.

(** [str(n)] for a value of the [num_tokens] column. *)
Definition str_num_tokens (n : option Z) : string :=
  match n with
  | Some z => str_int z
  | None => EmptyString
  end.

(** [x] is printed as a literal that reads back as [x]. *)
Definition reads_back (x : float) : Prop :=
  literal_text (float_repr x) = true
  ∧ float_literal (float_repr x) = Some x.

(** [int(x) if x != '' else ''] *)
Definition parse_num_tokens (x : string) : result (option Z) :=
  if negb (is_empty x) then n ← py_int x; OK (Some n) else OK None.

Definition get_data (wb : workbook) : result (list entry) :=
  sheet ← access_sheet "info" wb;
  let data := get_all_values sheet in
  df ← DataFrame (tail data) 4;
  embeddings ← traverse (λ row, parse_numbers (row !!! 3)) df;
  num_tokens ← traverse (λ row, parse_num_tokens (row !!! 2)) df;
  OK (zip_with (λ row '(n, v), Entry (row !!! 0) (row !!! 1) n v)
        df (zip num_tokens embeddings)).

(** The entry [e] is what the four cells of the sheet row [i + 2] read
    as. *)
Definition loaded (s : worksheet) (i : nat) (e : entry) : Prop :=
  section e = cell s (i + 2) 1
  ∧ content e = cell s (i + 2) 2
  ∧ parse_num_tokens (cell s (i + 2) 3) = OK (num_tokens e)
  ∧ parse_numbers (cell s (i + 2) 4) = OK (embeddings e).

(** An integer that [str] prints within the limit of [int]. *)
Definition short_int (z : Z) : Prop :=
  String.length (str_int z) ≤ int_max_str_digits.

(** An entry whose computed fields are read back as they are: a token
    count within the limit of [int], and an embedding that is absent or a
    Python list, not empty, of numbers that read back. *)
Definition storable (e : entry) : Prop :=
  (∃ n, num_tokens e = Some n ∧ short_int n)
  ∧ (embeddings e = None
     ∨ ∃ xs, embeddings e = Some (PyList xs) ∧ xs ≠ []
             ∧ Forall reads_back xs).

(** [df.loc[row]] on a frame with the default index. *)
Definition df_loc {A} (df : list A) (row : nat) : result A :=
  match df !! row with
  | Some e => OK e
  | None => Raise KeyError
  end.

(** The body of the loop of [record_embeddings]. *)
Definition record_row (df : list entry) (sheet : result worksheet) (row : nat)
  : result worksheet :=
  sheet ← sheet;
  e ← df_loc df row;
  let sheet := update_cell (row + 2) 3 (str_num_tokens (num_tokens e)) sheet in
  let sheet := update_cell (row + 2) 4 (str_embeddings (embeddings e)) sheet in
  OK sheet.

Definition record_embeddings (df : list entry) (wb : workbook)
  : result workbook :=
  sheet ← access_sheet "info" wb;
  sheet ← foldl (record_row df) (OK sheet) (seq 0 (length df));
  OK (store_sheet "info" sheet wb).

(** *** Embeddings *)

Definition get_embeddings (text method : string) : result vector :=
  let embedding : option vector := None in
  embedding ←
    (if decide (method = "openai") then
       let model := "text-embedding-ada-002" in
       xs ← openai_Embedding_create model text;
       OK (Some (PyList xs))
     else OK embedding);
  embedding ←
    (if decide (method = "huggingface") then
       xs ← SentenceTransformer_encode "paraphrase-MiniLM-L6-v2" text;
       OK (Some (NdArray xs))
     else OK embedding);
  match embedding with
  | Some v => OK v
  | None => Raise UnboundLocalError
  end.

(** The column [combined] of one row. *)
Definition combine (section content : string) : string :=
  "Title: " +:+ strip section +:+ "; Content: " +:+ strip content.

Definition add_embeddings (df : list entry) (method : string)
  : result (list combined_entry) :=
  let df := (λ e, CombinedEntry e (combine (section e) (content e))) <$> df in
  vs ← traverse (λ x, get_embeddings (combined x) method) df;
  OK (zip_with
        (λ x v,
           CombinedEntry
             (Entry (section (base x)) (content (base x))
                (Some (Z.of_nat (length (tokenizer_encode (combined x)))))
                (Some v))
             (combined x))
        df vs).

Definition update_data (method : string) (wb : workbook) : result workbook :=
  df ← get_data wb;
  df ← add_embeddings df method;
  record_embeddings (base <$> df) wb.

(** *** Ranking *)

Definition vector_similarity (x : option vector) (y : vector)
  : result float :=
  match x with
  | None => Raise TypeError
  | Some v =>
      if decide (length (np_array v) = length (np_array y))
      then OK (np_dot (np_array v) (np_array y))
      else Raise ValueError
  end.

Definition order_entries_by_similarity
    (query : string) (df : list entry) (method : string)
  : result (list ranked_entry) :=
  query_embedding ← get_embeddings query method;
  sims ← traverse (λ e, vector_similarity (embeddings e) query_embedding) df;
  let df := zip_with Ranked df sims in
  OK (sort_values_desc similarity df).

(** *** The prompt *)

Definition get_max_num_tokens : Z := 2046.

Definition SEPARATOR : string := nl +:+ "* ".

Definition header : string :=
  nl +:+ "    This question is asked by an interviewer or somebody who wants to know"
  +:+ nl +:+ "    more about me, Francois Ascani. Answer politely using the following context"
  +:+ nl +:+ "    but don't be afraid to have a candid, good-nature, and joking tone as"
  +:+ nl +:+ "    this is exactly who I am. Context:" +:+ nl
  +:+ nl +:+ "    ".

(** The [for] loop of [construct_prompt] over the rows [df] that are left,
    with the two variables it updates.  The loop ends at the end of the
    frame or at the [break]; a row whose [num_tokens] is [''] makes the
    addition raise. *)
Fixpoint pack_sections (MAX_SECTION_LEN separator_len : Z)
    (df : list ranked_entry)
    (chosen_sections : list string) (chosen_sections_len : Z)
  : result (list string * Z) :=
  match df with
  | [] => OK (chosen_sections, chosen_sections_len)
  | document_section :: df' =>
      match num_tokens (ranked document_section) with
      | None => Raise TypeError
      | Some n =>
          let chosen_sections_len :=
            (chosen_sections_len + (n + separator_len))%Z in
          if (chosen_sections_len >? MAX_SECTION_LEN)%Z
          then OK (chosen_sections, chosen_sections_len)
          else
            pack_sections MAX_SECTION_LEN separator_len df'
              (chosen_sections ++
                 [SEPARATOR +:+
                    replace newline " " (content (ranked document_section))])
              chosen_sections_len
      end
  end.

(** The text that the loop appends for a row, the number of tokens the
    loop charges for it, and the charge for a run of rows.  A row whose
    [num_tokens] is [''] has no charge; the statements below exclude such
    rows. *)
Definition section_text (r : ranked_entry) : string :=
  SEPARATOR +:+ replace newline " " (content (ranked r)).

Definition section_cost (separator_len : Z) (r : ranked_entry) : Z :=
  (default 0 (num_tokens (ranked r)) + separator_len)%Z.

Definition total_cost (separator_len : Z) (rows : list ranked_entry) : Z :=
  foldr (λ r acc, (section_cost separator_len r + acc)%Z) 0%Z rows.

Definition has_num_tokens (r : ranked_entry) : Prop :=
  is_Some (num_tokens (ranked r)).

(** [len(tokenizer.tokenize(SEPARATOR))] *)
Definition SEPARATOR_len : Z :=
  Z.of_nat (length (tokenizer_tokenize SEPARATOR)).

Definition construct_prompt (query : string) (df : list entry)
    (method : string) : result string :=
  let MAX_SECTION_LEN := get_max_num_tokens in
  let separator_len := SEPARATOR_len in
  df ← order_entries_by_similarity query df method;
  packed ← pack_sections MAX_SECTION_LEN separator_len df [] 0%Z;
  let chosen_sections := packed.1 in
  OK (header +:+ Py.concat chosen_sections
      +:+ nl +:+ nl +:+ " Q: " +:+ query +:+ nl +:+ " A:").

(** *** The question and answer log *)

Definition record_question_answer (query answer : string) (today : date)
    (wb : workbook) : result workbook :=
  sheet ← access_sheet "Q&A" wb;
  let data := get_all_values sheet in
  df ← DataFrame (tail data) 3;
  let num_records := length df in
  let today_str := strftime_Ymd today in
  let sheet := update_cell (num_records + 2) 1 today_str sheet in
  let sheet := update_cell (num_records + 2) 2 query sheet in
  let sheet := update_cell (num_records + 2) 3 answer sheet in
  OK (store_sheet "Q&A" sheet wb).

(** *** Answering a question *)

(** The function returns its result together with the workbook it leaves
    behind. *)
Definition ama_chatbot (query : string) (df : list entry) (method : string)
    (wb : workbook) : result (string * string) * workbook :=
  let r :=
    prompt ← construct_prompt query df method;
    let COMPLETIONS_MODEL := "text-davinci-003" in
    text ← openai_Completion_create
             (CompletionRequest prompt (9 # 10) 300 1 0 0 COMPLETIONS_MODEL);
    let answer := strip_chars (String " " nl) text in
    OK (answer, prompt) in
  (r, wb).

(** *** Vocabulary for the statements about the ranking *)




End Program.

(** ** Test doubles

    A runtime with integer-valued numbers, one token per character and
    backends that answer without a network; the examples run on it. *)

Module Mock.

Definition key_ge {A} (key : A → Z) (a b : A) : Prop := (key b ≤ key a)%Z.

Global Instance key_ge_dec {A} (key : A → Z) : RelDecision (key_ge key).
Proof. intros a b. unfold key_ge. apply _. Defined.

Definition literal (s : string) : option Z :=
  Z.of_int <$> NilZero.int_of_string s.

Fixpoint dot (xs ys : list Z) : Z :=
  match xs, ys with
  | x :: xs', y :: ys' => (x * y + dot xs' ys')%Z
  | _, _ => 0%Z
  end.

Fixpoint chars (s : string) : list ascii :=
  match s with
  | EmptyString => []
  | String c t => c :: chars t
  end.

(** The embedding of a text: its length and the number of blanks in it. *)
Definition embed (text : string) : list Z :=
  [Z.of_nat (String.length text);
   Z.of_nat (length (filter (λ c, c = " "%char) (chars text)))].

Definition runtime_with
    (sort : ∀ A : Type, (A → Z) → list A → list A) : Runtime := {|
  float := Z;
  float_repr := str_int;
  float_literal := literal;
  ndarray_str := λ xs, "[" +:+ join " " (str_int <$> xs) +:+ "]";
  np_dot := dot;
  float_le := Z.le;
  sort_values_desc := sort;
  openai_Embedding_create := λ _ text, OK (embed text);
  SentenceTransformer_encode := λ _ text, OK (embed text);
  openai_Completion_create := λ _, OK (" hello" +:+ nl);
  tokenizer_tokenize := λ s, (λ c, String c EmptyString) <$> chars s;
  tokenizer_encode := λ s, (λ c, Z.of_nat (nat_of_ascii c)) <$> chars s
|}.

(** Two sorting routines: merge sort by descending key, and the same
    after the rows were taken in reverse. *)
Definition sort_desc (A : Type) (key : A → Z) (l : list A) : list A :=
  merge_sort (key_ge key) l.

Definition sort_desc_rev (A : Type) (key : A → Z) (l : list A) : list A :=
  merge_sort (key_ge key) (reverse l).

Definition runtime : Runtime := runtime_with sort_desc.
Definition runtime' : Runtime := runtime_with sort_desc_rev.

(** The two entries of the scenario of the specification. *)
Definition hobbies : @entry runtime :=
  Entry "Hobbies" "I like chess." (Some 6%Z)
    (Some (PyList (RT := runtime) [1; 0]%Z)).
Definition job : @entry runtime :=
  Entry "Job" "I am an engineer." (Some 8%Z)
    (Some (PyList (RT := runtime) [2; 1]%Z)).

(** A log with its header row and nothing else. *)
Definition empty_log : worksheet :=
  update_cell 1 3 "answer" (update_cell 1 2 "query" (update_cell 1 1 "date" ∅)).

Definition info_header : worksheet :=
  update_cell 1 4 "embeddings" (update_cell 1 3 "num_tokens"
    (update_cell 1 2 "content" (update_cell 1 1 "section" ∅))).

Definition book : workbook := Workbook info_header empty_log.

(** A knowledge base with the two entries of the scenario and nothing
    computed yet. *)
Definition library : worksheet :=
  update_cell 3 2 "I am an engineer." (update_cell 3 1 "Job"
    (update_cell 2 2 "I like chess." (update_cell 2 1 "Hobbies"
      info_header))).

Definition shelf : workbook := Workbook library empty_log.

(** An entry whose embedding was never computed, and one with white space
    around its section and content. *)
Definition draft : @entry runtime := Entry "Draft" "To be written." None None.
Definition padded : @entry runtime := Entry " Hobbies" "I like chess. " None None.

(** The rows of [library] as [get_data] reads them. *)
Definition pages : list (@entry runtime) :=
  [Entry "Hobbies" "I like chess." None None;
   Entry "Job" "I am an engineer." None None].

(** An entry with an embedding and no token count. *)
Definition uncounted : @entry runtime :=
  Entry "Draft" "To be written." None (Some (PyList (RT := runtime) [0; 0]%Z)).

(** The scenario ranked against the query ["What do you do?"]. *)
Definition ranking : list (@ranked_entry runtime) :=
  [Ranked job 33%Z; Ranked hobbies 15%Z].

(** Two entries with the same embedding, for the runtime that sorts the
    reversed frame. *)
Definition twin_a : @entry runtime' :=
  Entry "A" "first" (Some 3%Z) (Some (PyList (RT := runtime') [1; 1]%Z)).
Definition twin_b : @entry runtime' :=
  Entry "B" "second" (Some 3%Z) (Some (PyList (RT := runtime') [1; 1]%Z)).

End Mock.

(** * Properties *)

(** ** Facts about the string methods *)

Module PyFacts.

Lemma append_cons c s t : String c s +:+ t = String c (s +:+ t).
Proof. reflexivity. Qed.

Lemma append_nil_l s : EmptyString +:+ s = s.
Proof. reflexivity. Qed.

Lemma append_nil_r s : s +:+ EmptyString = s.
Proof. induction s as [|c s IH]; [done|]. by rewrite append_cons, IH. Qed.

Lemma append_assoc s t u : (s +:+ t) +:+ u = s +:+ (t +:+ u).
Proof.
  induction s as [|c s IH]; [done|]. by rewrite !append_cons, IH.
Qed.

Lemma all_chars_app q s t :
  all_chars q (s +:+ t) = all_chars q s && all_chars q t.
Proof.
  induction s as [|c s IH]; [done|].
  rewrite append_cons. simpl. rewrite IH. by destruct (q c).
Qed.

Lemma all_chars_impl (q q' : ascii → bool) s :
  (∀ c, q c = true → q' c = true) →
  all_chars q s = true → all_chars q' s = true.
Proof.
  intros Hq. induction s as [|c s IH]; [done|]. simpl.
  intros [Hc Hs]%andb_prop. by rewrite (Hq _ Hc), IH.
Qed.

Lemma ends_with_cons p c s :
  s ≠ EmptyString → ends_with p (String c s) = ends_with p s.
Proof. by destruct s. Qed.

(** A string without any [p] character has no [p] character at its ends. *)
Lemma all_chars_edge_free p s :
  all_chars (λ c, negb (p c)) s = true → edge_free p s.
Proof.
  intros H. split.
  - destruct s as [|c s]; [done|]. simpl in *.
    apply andb_prop in H as [H _]. by destruct (p c).
  - induction s as [|c s IH]; [done|].
    simpl in H. apply andb_prop in H as [Hc Hs].
    destruct s as [|d s]; [simpl; by destruct (p c)|].
    rewrite ends_with_cons by done. by apply IH.
Qed.

(** *** [strip] *)

Lemma lstrip_with_all p a s :
  all_chars p a = true → lstrip_with p (a +:+ s) = lstrip_with p s.
Proof.
  induction a as [|c a IH]; [done|]. simpl.
  intros [Hc Ha]%andb_prop. rewrite ?append_cons. simpl.
  rewrite Hc. by apply IH.
Qed.

Lemma lstrip_with_id p s : starts_with p s = false → lstrip_with p s = s.
Proof. destruct s as [|c s]; [done|]. simpl. by intros ->. Qed.

Lemma rstrip_with_cons p c t :
  rstrip_with p (String c t) =
  if is_empty (rstrip_with p t) && p c then EmptyString
  else String c (rstrip_with p t).
Proof. reflexivity. Qed.

Lemma rstrip_with_all p b :
  all_chars p b = true → rstrip_with p b = EmptyString.
Proof.
  induction b as [|c b IH]; [done|]. simpl all_chars.
  intros [Hc Hb]%andb_prop. by rewrite rstrip_with_cons, IH, Hc.
Qed.

Lemma rstrip_with_app p m b :
  all_chars p b = true → ends_with p m = false →
  rstrip_with p (m +:+ b) = m.
Proof.
  intros Hb. induction m as [|c m IH].
  - intros _. by apply rstrip_with_all.
  - rewrite append_cons, rstrip_with_cons. destruct m as [|d m].
    + simpl ends_with. intros ->.
      by rewrite append_nil_l, (rstrip_with_all _ _ Hb).
    + rewrite ends_with_cons by done. intros H. by rewrite (IH H).
Qed.

Lemma rstrip_with_id p s : ends_with p s = false → rstrip_with p s = s.
Proof.
  intros H. rewrite <-(append_nil_r s) at 1. by apply rstrip_with_app.
Qed.

(** What [strip] removes: taking off a run of [p] characters at either end
    of a string with clean ends gives that string back. *)
Lemma strip_with_sandwich p a m b :
  all_chars p a = true → all_chars p b = true → edge_free p m →
  strip_with p (a +:+ m +:+ b) = m.
Proof.
  intros Ha Hb [Hs He]. unfold strip_with.
  rewrite lstrip_with_all by done.
  destruct m as [|c m].
  - rewrite append_nil_l.
    assert (lstrip_with p b = EmptyString) as ->; [|done].
    clear -Hb. induction b as [|c b IH]; [done|]. simpl in *.
    apply andb_prop in Hb as [-> Hb]. by apply IH.
  - rewrite lstrip_with_id by (by rewrite append_cons).
    by apply rstrip_with_app.
Qed.

Lemma strip_with_id p s : edge_free p s → strip_with p s = s.
Proof.
  intros H.
  rewrite <-(append_nil_r s) at 1.
  by apply (strip_with_sandwich p EmptyString s EmptyString).
Qed.

(** Every string is its stripped part between two runs of [p]
    characters, and the stripped part has clean ends. *)
Lemma lstrip_with_decompose p s :
  ∃ a, s = a +:+ lstrip_with p s ∧ all_chars p a = true
       ∧ starts_with p (lstrip_with p s) = false.
Proof.
  induction s as [|c s (a & Hs & Ha & Hstart)].
  - by exists EmptyString.
  - simpl. destruct (p c) eqn:Hc.
    + exists (String c a). rewrite append_cons, <-Hs. simpl. by rewrite Hc.
    + exists EmptyString. by rewrite append_nil_l.
Qed.

Lemma rstrip_with_decompose p s :
  ∃ b, s = rstrip_with p s +:+ b ∧ all_chars p b = true
       ∧ ends_with p (rstrip_with p s) = false
       ∧ (starts_with p s = false →
          starts_with p (rstrip_with p s) = false).
Proof.
  induction s as [|c s (b & Hs & Hb & Hend & _)].
  - by exists EmptyString.
  - rewrite rstrip_with_cons.
    destruct (rstrip_with p s) as [|d r] eqn:Hr; simpl is_empty; cbv iota.
    + rewrite append_nil_l in Hs. subst b. destruct (p c) eqn:Hc; simpl.
      * exists (String c s). rewrite append_nil_l. simpl. rewrite Hc, Hb.
        by repeat split.
      * exists s. rewrite append_cons, append_nil_l. by rewrite Hb.
    + simpl andb. cbv iota. exists b. rewrite append_cons, <-Hs.
      rewrite ends_with_cons by done. by simpl.
Qed.

Lemma strip_with_decompose p s :
  ∃ a b, s = a +:+ strip_with p s +:+ b
         ∧ all_chars p a = true ∧ all_chars p b = true
         ∧ edge_free p (strip_with p s).
Proof.
  destruct (lstrip_with_decompose p s) as (a & Hs & Ha & Hstart).
  destruct (rstrip_with_decompose p (lstrip_with p s))
    as (b & Hl & Hb & Hend & Hstart').
  exists a, b. unfold strip_with, edge_free.
  split; [by rewrite <-Hl|]. auto.
Qed.

Lemma all_chars_strip_with q p s :
  all_chars q s = true → all_chars q (strip_with p s) = true.
Proof.
  destruct (strip_with_decompose p s) as (a & b & Hs & _).
  rewrite Hs at 1. rewrite !all_chars_app.
  by intros [_ [? _]%andb_prop]%andb_prop.
Qed.

(** *** [split] and [join] *)

Lemma split_cons_ne sep c s :
  ascii_eqb c sep = false →
  split sep (String c s) =
  match split sep s with
  | w :: ws => String c w :: ws
  | [] => [String c EmptyString]
  end.
Proof. intros H. simpl. by rewrite H. Qed.

Lemma split_cons_eq sep s :
  split sep (String sep s) = EmptyString :: split sep s.
Proof. simpl. unfold ascii_eqb. by rewrite Ascii.eqb_refl. Qed.

(** A text without the separator is one piece. *)
Lemma split_one sep s :
  all_chars (λ c, negb (ascii_eqb c sep)) s = true → split sep s = [s].
Proof.
  induction s as [|c s IH]; [done|]. simpl all_chars.
  intros [Hc Hs]%andb_prop. apply negb_true_iff in Hc.
  by rewrite split_cons_ne, IH.
Qed.

Lemma split_app sep a b :
  all_chars (λ c, negb (ascii_eqb c sep)) a = true →
  split sep (a +:+ String sep b) = a :: split sep b.
Proof.
  induction a as [|c a IH].
  - intros _. by rewrite append_nil_l, split_cons_eq.
  - simpl all_chars. intros [Hc Ha]%andb_prop. apply negb_true_iff in Hc.
    by rewrite append_cons, split_cons_ne, IH.
Qed.

Lemma join_cons sep p q rest :
  join sep (p :: q :: rest) = p +:+ sep +:+ join sep (q :: rest).
Proof. reflexivity. Qed.

Lemma all_chars_join q sep parts :
  all_chars q sep = true → Forall (λ p, all_chars q p = true) parts →
  all_chars q (join sep parts) = true.
Proof.
  intros Hsep. induction 1 as [|p parts Hp Hparts IH]; [done|].
  destruct parts as [|p' parts]; [done|].
  by rewrite join_cons, !all_chars_app, Hp, Hsep, IH.
Qed.

(** Splitting at the commas what was joined with [", "] gives the parts
    back, each but the first behind the blank of the separator. *)
Lemma split_join p parts :
  Forall (λ p, all_chars (λ c, negb (ascii_eqb c ",")) p = true)
    (p :: parts) →
  split "," (join ", " (p :: parts)) = p :: (String " " <$> parts).
Proof.
  revert p. induction parts as [|q parts IH]; intros p Hall.
  - apply split_one. by inversion Hall.
  - inversion Hall as [|?? Hp Hrest]; subst.
    rewrite join_cons.
    change (", " +:+ join ", " (q :: parts))
      with (String "," (String " " (join ", " (q :: parts)))).
    rewrite split_app by done.
    rewrite split_cons_ne by done. by rewrite IH.
Qed.

Lemma literal_text_spec s :
  literal_text s = true →
  s ≠ EmptyString
  ∧ all_chars (λ c, negb (isspace c)) s = true
  ∧ all_chars (λ c, negb (mem c "[]")) s = true
  ∧ all_chars (λ c, negb (ascii_eqb c ",")) s = true.
Proof.
  unfold literal_text. intros [Hne Hall]%andb_prop.
  split; [by destruct s|].
  repeat split; (eapply all_chars_impl; [|done]); intros c Hc;
    apply negb_true_iff, orb_false_elim in Hc as [Hsp Hmem];
    cbn [mem] in *;
    destruct (ascii_eqb c "["), (ascii_eqb c "]"), (ascii_eqb c ",");
    try done; by rewrite Hsp.
Qed.

End PyFacts.

(** ** Facts about the exception monad *)

Module ResultFacts.

Lemma bind_OK {A B} (m : result A) (k : A → result B) b :
  m ≫= k = OK b ↔ ∃ a, m = OK a ∧ k a = OK b.
Proof.
  unfold mbind, result_bind. destruct m as [a|e]; simpl.
  - split; [eauto|]. by intros (a' & [= <-] & ?).
  - split; [done|]. by intros (? & ? & ?).
Qed.

Lemma bind_Raise {A B} (m : result A) (k : A → result B) e :
  m ≫= k = Raise e ↔ m = Raise e ∨ ∃ a, m = OK a ∧ k a = Raise e.
Proof.
  unfold mbind, result_bind. destruct m as [a|e']; simpl.
  - split; [eauto|]. intros [?|(a' & [= <-] & ?)]; done.
  - split; [intros [= <-]; eauto|]. intros [[= ->]|(? & ? & ?)]; done.
Qed.

Lemma traverse_cons {A B} (f : A → result B) x xs :
  traverse f (x :: xs) =
  y ← f x; ys ← traverse f xs; OK (y :: ys).
Proof. reflexivity. Qed.

(** A traversal that returns has visited every element. *)
Lemma traverse_OK {A B} (f : A → result B) xs ys :
  traverse f xs = OK ys ↔ Forall2 (λ x y, f x = OK y) xs ys.
Proof.
  revert ys. induction xs as [|x xs IH]; intros ys.
  - simpl. split; [intros [= <-]; constructor|by inversion 1].
  - rewrite traverse_cons, bind_OK. split.
    + intros (y & Hy & (ys' & Hys & [= <-])%bind_OK).
      constructor; [done|by apply IH].
    + inversion 1 as [|? y ? ys' Hy Hys]; subst.
      exists y. split; [done|]. apply bind_OK. exists ys'.
      split; [by apply IH|done].
Qed.

(** The exception of a traversal is the exception of the first element
    that raises. *)
Lemma traverse_Raise {A B} (f : A → result B) xs e :
  traverse f xs = Raise e ↔
  ∃ good x rest ys,
    xs = good ++ x :: rest ∧ traverse f good = OK ys ∧ f x = Raise e.
Proof.
  induction xs as [|x xs IH].
  - split; [done|]. intros ([|??] & ? & ? & ? & ? & _); done.
  - rewrite traverse_cons, bind_Raise. split.
    + intros [Hx|(y & Hy & [Hxs|(ys & _ & ?)]%bind_Raise)]; [| |done].
      * by exists [], x, xs, [].
      * apply IH in Hxs as (good & x' & rest & ys & -> & Hgood & Hx').
        exists (x :: good), x', rest, (y :: ys). split; [done|].
        split; [|done]. by rewrite traverse_cons, Hy, Hgood.
    + intros (good & x' & rest & ys & Hxs & Hgood & Hx').
      destruct good as [|g good]; simpl in Hxs; injection Hxs as -> ->;
        [by left|].
      right. rewrite traverse_cons in Hgood.
      apply bind_OK in Hgood as (y & Hy & (ys' & Hys & _)%bind_OK).
      exists y. split; [done|]. apply bind_Raise. left.
      apply IH. by exists good, x', rest, ys'.
Qed.

(** A traversal returns when every element does. *)
Lemma traverse_returns {A B} (f : A → result B) xs :
  Forall (λ x, ∃ y, f x = OK y) xs → ∃ ys, traverse f xs = OK ys.
Proof.
  induction 1 as [|x xs [y Hy] _ [ys Hys]]; [by exists []|].
  exists (y :: ys). by rewrite traverse_cons, Hy, Hys.
Qed.

(** One element that raises is enough to make the traversal raise. *)
Lemma traverse_raised {A B} (f : A → result B) xs :
  Exists (λ x, raised (f x)) xs → raised (traverse f xs).
Proof.
  induction 1 as [x xs [e He]|x xs _ [e He]].
  - exists e. by rewrite traverse_cons, He.
  - rewrite traverse_cons. destruct (f x) as [y|e']; [|by exists e'].
    exists e. simpl. by rewrite He.
Qed.

End ResultFacts.

(** ** Facts about worksheets *)

Module SheetFacts.

Lemma cell_update_cell (s : worksheet) r c v r' c' :
  cell (update_cell r c v s) r' c' =
  if decide ((r, c) = (r', c')) then v else cell s r' c'.
Proof.
  unfold cell, update_cell. rewrite lookup_insert.
  by destruct (decide ((r, c) = (r', c'))).
Qed.

Lemma cell_update_cell_eq (s : worksheet) r c v :
  cell (update_cell r c v s) r c = v.
Proof. rewrite cell_update_cell. by rewrite decide_True. Qed.

Lemma cell_update_cell_ne (s : worksheet) r c v r' c' :
  (r, c) ≠ (r', c') → cell (update_cell r c v s) r' c' = cell s r' c'.
Proof. intros. rewrite cell_update_cell. by rewrite decide_False. Qed.

(** *** The extent of a worksheet *)

Lemma elem_of_used (s : worksheet) r c :
  (r, c) ∈ used s ↔ s !! (r, c) ≠ None ∧ cell s r c ≠ EmptyString.
Proof.
  unfold used, cell. rewrite list_elem_of_fmap. split.
  - intros ([k v] & Hk & [Hv Hkv%elem_of_map_to_list]%list_elem_of_filter).
    simpl in *. subst k. by rewrite Hkv.
  - intros [Hs Hv]. destruct (s !! (r, c)) as [v|] eqn:Hkv; [|done].
    exists ((r, c), v). split; [done|].
    apply list_elem_of_filter. split; [done|].
    by apply elem_of_map_to_list.
Qed.

Lemma cell_used (s : worksheet) r c :
  cell s r c ≠ EmptyString → (r, c) ∈ used s.
Proof.
  intros H. apply elem_of_used. split; [|done].
  unfold cell in H. by destruct (s !! (r, c)).
Qed.

Lemma nrows_ge (s : worksheet) r c : cell s r c ≠ EmptyString → r ≤ nrows s.
Proof.
  intros H%cell_used. apply max_list_elem_of_le.
  apply list_elem_of_fmap. by exists (r, c).
Qed.

Lemma ncols_ge (s : worksheet) r c : cell s r c ≠ EmptyString → c ≤ ncols s.
Proof.
  intros H%cell_used. apply max_list_elem_of_le.
  apply list_elem_of_fmap. by exists (r, c).
Qed.

Lemma nrows_reached (s : worksheet) :
  nrows s ≠ 0 → ∃ c, cell s (nrows s) c ≠ EmptyString.
Proof.
  intros H. unfold nrows in *.
  assert (fst <$> used s ≠ []) as Hne by (by intros Hl; rewrite Hl in H).
  apply max_list_elem_of, list_elem_of_fmap in Hne
    as ([r c] & Hr & Hrc%elem_of_used).
  simpl in Hr. rewrite Hr. exists c. tauto.
Qed.

Lemma ncols_reached (s : worksheet) :
  ncols s ≠ 0 → ∃ r, cell s r (ncols s) ≠ EmptyString.
Proof.
  intros H. unfold ncols in *.
  assert (snd <$> used s ≠ []) as Hne by (by intros Hl; rewrite Hl in H).
  apply max_list_elem_of, list_elem_of_fmap in Hne
    as ([r c] & Hc & Hrc%elem_of_used).
  simpl in Hc. rewrite Hc. exists r. tauto.
Qed.

(** The number of rows is the only bound on the rows in use that is
    itself in use (or zero). *)
Lemma nrows_intro (s : worksheet) n :
  (∀ r c, cell s r c ≠ EmptyString → r ≤ n) →
  (n = 0 ∨ ∃ c, cell s n c ≠ EmptyString) →
  nrows s = n.
Proof.
  intros Hbound Hn. apply Nat.le_antisymm.
  - destruct (decide (nrows s = 0)) as [->|H0]; [lia|].
    destruct (nrows_reached s H0) as [c Hc]. by eapply Hbound.
  - destruct Hn as [->|[c Hc]]; [lia|]. by eapply nrows_ge.
Qed.

Lemma ncols_intro (s : worksheet) n :
  (∀ r c, cell s r c ≠ EmptyString → c ≤ n) →
  (n = 0 ∨ ∃ r, cell s r n ≠ EmptyString) →
  ncols s = n.
Proof.
  intros Hbound Hn. apply Nat.le_antisymm.
  - destruct (decide (ncols s = 0)) as [->|H0]; [lia|].
    destruct (ncols_reached s H0) as [r Hr]. by eapply Hbound.
  - destruct Hn as [->|[r Hr]]; [lia|]. by eapply ncols_ge.
Qed.

Lemma beyond_nrows (s : worksheet) r c : nrows s < r → cell s r c = EmptyString.
Proof.
  intros Hr. destruct (decide (cell s r c = EmptyString)) as [|H]; [done|].
  apply nrows_ge in H. lia.
Qed.

Lemma length_get_all_values (s : worksheet) :
  length (get_all_values s) = nrows s.
Proof. unfold get_all_values. by rewrite length_fmap, length_seq. Qed.

Lemma get_all_values_widths (s : worksheet) :
  Forall (λ row, length row = ncols s) (get_all_values s).
Proof.
  unfold get_all_values. apply Forall_fmap, Forall_forall.
  intros r _. simpl. by rewrite length_fmap, length_seq.
Qed.

(** Two worksheets that agree on a block of cells show the same block. *)
Lemma block_ext (s s' : worksheet) n m :
  (∀ r c, 1 ≤ r ≤ n → 1 ≤ c ≤ m → cell s' r c = cell s r c) →
  ((λ r, (λ c, cell s' r c) <$> seq 1 m) <$> seq 1 n)
  = ((λ r, (λ c, cell s r c) <$> seq 1 m) <$> seq 1 n).
Proof.
  intros H. apply list_fmap_ext. intros i r Hr%lookup_seq.
  apply list_fmap_ext. intros j c Hc%lookup_seq. apply H; lia.
Qed.

End SheetFacts.

(** ** The embedding backends *)

Section Embeddings.
Context `{RT : Runtime}.
Import ResultFacts.

Lemma get_embeddings_openai text :
  get_embeddings text "openai" =
  xs ← openai_Embedding_create "text-embedding-ada-002" text; OK (PyList xs).
Proof.
  unfold get_embeddings. simpl.
  by destruct (openai_Embedding_create _ _).
Qed.

Lemma get_embeddings_huggingface text :
  get_embeddings text "huggingface" =
  xs ← SentenceTransformer_encode "paraphrase-MiniLM-L6-v2" text;
  OK (NdArray xs).
Proof.
  unfold get_embeddings. simpl.
  by destruct (SentenceTransformer_encode _ _).
Qed.

Lemma get_embeddings_unbound text method :
  method ≠ "openai" → method ≠ "huggingface" →
  get_embeddings text method = Raise UnboundLocalError.
Proof.
  intros H1 H2. unfold get_embeddings. rewrite decide_False by done. cbn.
  by rewrite decide_False.
Qed.

(** C10.  With a backend selector other than ['openai'] and
    ['huggingface'] neither branch binds the local variable [embedding], so
    [return embedding] raises [UnboundLocalError]: no vector is returned
    for any text. *)
Theorem get_embeddings_unsupported_method text method :
  method ≠ "openai" → method ≠ "huggingface" →
  get_embeddings text method = Raise UnboundLocalError
  ∧ ∀ v, get_embeddings text method ≠ OK v.
Proof.
  intros H1 H2. by rewrite get_embeddings_unbound.
Qed.

(** Conversely, a vector that is returned comes from one of the two
    backends. *)
Lemma get_embeddings_OK text method v :
  get_embeddings text method = OK v →
  (method = "openai" ∧ ∃ xs,
     openai_Embedding_create "text-embedding-ada-002" text = OK xs
     ∧ v = PyList xs)
  ∨ (method = "huggingface" ∧ ∃ xs,
     SentenceTransformer_encode "paraphrase-MiniLM-L6-v2" text = OK xs
     ∧ v = NdArray xs).
Proof.
  destruct (decide (method = "openai")) as [->|H1].
  - rewrite get_embeddings_openai.
    intros (xs & ? & [= <-])%bind_OK. left. eauto.
  - destruct (decide (method = "huggingface")) as [->|H2].
    + rewrite get_embeddings_huggingface.
      intros (xs & ? & [= <-])%bind_OK. right. eauto.
    + by rewrite get_embeddings_unbound.
Qed.

(** *** The column [combined] *)

(** On strings without white space at their ends, [combine] is the plain
    template. *)
Lemma combine_template section content :
  edge_free isspace section → edge_free isspace content →
  combine section content = "Title: " +:+ section +:+ "; Content: " +:+ content.
Proof.
  intros Hs Hc. unfold combine, strip.
  by rewrite !PyFacts.strip_with_id.
Qed.

Lemma add_embeddings_rows (df : list entry) method out :
  add_embeddings df method = OK out →
  Forall2
    (λ e x, combined x = combine (section e) (content e)
            ∧ section (base x) = section e
            ∧ content (base x) = content e
            ∧ num_tokens (base x)
              = Some (Z.of_nat (length (tokenizer_encode (combined x))))
            ∧ ∃ v, get_embeddings (combined x) method = OK v
                   ∧ embeddings (base x) = Some v)
    df out.
Proof.
  unfold add_embeddings.
  intros (vs & Hvs%traverse_OK & [= <-])%bind_OK.
  revert vs Hvs. induction df as [|e df IH]; intros vs Hvs.
  - inversion Hvs. constructor.
  - rewrite fmap_cons in Hvs.
    inversion Hvs as [|? v ? vs' Hv Hvs']; subst.
    rewrite fmap_cons. simpl zip_with. constructor; [|by apply IH].
    simpl in *. eauto 10.
Qed.

(** [add_embeddings] returns when the backend answers for every row. *)
Lemma add_embeddings_returns (df : list entry) method :
  Forall (λ e, ∃ v, get_embeddings (combine (section e) (content e)) method
                    = OK v) df →
  ∃ out, add_embeddings df method = OK out.
Proof.
  intros H. unfold add_embeddings.
  destruct (traverse_returns
              (λ x, get_embeddings (combined x) method)
              ((λ e, CombinedEntry e (combine (section e) (content e)))
               <$> df)) as [vs Hvs].
  { by apply Forall_fmap. }
  eexists. apply bind_OK. by exists vs.
Qed.

(** C6, as the code has it.  [add_embeddings] returns when the backend
    answers for every row, and then every row carries
    [combined = "Title: " + section.strip() + "; Content: " +
    content.strip()]: the template is filled with the section and the
    content stripped of surrounding white space.  It is the template
    filled with the section and the content themselves when neither
    starts or ends with white space. *)
Theorem combined_is_template_of_stripped (df : list entry) method :
  Forall (λ e, ∃ v, get_embeddings (combine (section e) (content e)) method
                    = OK v) df →
  ∃ out,
    add_embeddings df method = OK out
    ∧ Forall2
        (λ e x, combined x =
                "Title: " +:+ strip (section e) +:+ "; Content: "
                +:+ strip (content e)
                ∧ (edge_free isspace (section e) →
                   edge_free isspace (content e) →
                   combined x =
                   "Title: " +:+ section e +:+ "; Content: " +:+ content e))
        df out.
Proof.
  intros [out Hout]%add_embeddings_returns. exists out. split; [done|].
  apply add_embeddings_rows in Hout.
  eapply Forall2_impl; [done|]. intros e x (-> & _).
  split; [done|]. apply combine_template.
Qed.

End Embeddings.

(** ** Saving the computed columns *)

Section Store.
Context `{RT : Runtime}.
Import ResultFacts SheetFacts.

Lemma record_row_OK (df : list entry) s row e :
  df !! row = Some e →
  record_row df (OK s) row =
  OK (update_cell (row + 2) 4 (str_embeddings (embeddings e))
        (update_cell (row + 2) 3 (str_num_tokens (num_tokens e)) s)).
Proof. intros H. unfold record_row, df_loc. cbn. by rewrite H. Qed.

(** The loop of [record_embeddings] over the rows [a], ..., [a + n - 1]:
    it ends, it leaves every cell outside columns 3 and 4 of the sheet
    rows [a + 2], ..., [a + n + 1] as it was, and those cells hold the two
    computed fields of the matching row of the frame. *)
Lemma record_rows_spec (df : list entry) n : ∀ a s,
  a + n ≤ length df →
  ∃ s', foldl (record_row df) (OK s) (seq a n) = OK s'
    ∧ (∀ r c, ¬ (a + 2 ≤ r < a + n + 2 ∧ (c = 3 ∨ c = 4)) →
              cell s' r c = cell s r c)
    ∧ (∀ row e, a ≤ row < a + n → df !! row = Some e →
         cell s' (row + 2) 3 = str_num_tokens (num_tokens e)
         ∧ cell s' (row + 2) 4 = str_embeddings (embeddings e)).
Proof.
  induction n as [|n IH]; intros a s Hlen.
  - exists s. split; [done|]. split; [done|]. intros; lia.
  - destruct (lookup_lt_is_Some_2 df a) as [e He]; [lia|].
    cbn [seq foldl]. rewrite (record_row_OK _ _ _ _ He).
    set (s1 := update_cell _ _ _ _).
    destruct (IH (S a) s1) as (s' & Hfold & Hframe & Hcells); [lia|].
    assert (∀ r c, ¬ (r = a + 2 ∧ (c = 3 ∨ c = 4)) →
                   cell s1 r c = cell s r c) as Hs1.
    { intros r c Hrc. unfold s1.
      rewrite !cell_update_cell_ne; [done|intros [= ? ?]; lia..]. }
    exists s'. split; [done|]. split.
    + intros r c Hrc. rewrite Hframe by lia. apply Hs1. lia.
    + intros row e' Hrow Hrow'.
      destruct (decide (row = a)) as [->|Hne].
      * assert (e' = e) as -> by congruence.
        rewrite !Hframe by lia. unfold s1.
        rewrite cell_update_cell_eq.
        rewrite cell_update_cell_ne by (intros [= ?]; lia).
        by rewrite cell_update_cell_eq.
      * apply Hcells; [lia|done].
Qed.

(** What [record_embeddings] writes and what it leaves alone. *)
Lemma record_embeddings_cells (df : list entry) (wb : workbook) :
  ∃ wb', record_embeddings df wb = OK wb'
    ∧ qa wb' = qa wb
    ∧ (∀ r c, c ≠ 3 ∧ c ≠ 4 ∨ r < 2 ∨ length df + 2 ≤ r →
              cell (info wb') r c = cell (info wb) r c)
    ∧ (∀ row e, df !! row = Some e →
         cell (info wb') (row + 2) 3 = str_num_tokens (num_tokens e)
         ∧ cell (info wb') (row + 2) 4 = str_embeddings (embeddings e)).
Proof.
  destruct (record_rows_spec df (length df) 0 (info wb))
    as (s' & Hfold & Hframe & Hcells); [lia|].
  exists (Workbook s' (qa wb)).
  split; [|split; [done|split]].
  - unfold record_embeddings. apply bind_OK. exists (info wb).
    split; [done|]. apply bind_OK. by exists s'.
  - intros r c Hrc. simpl. apply Hframe. lia.
  - intros row e He. simpl. apply Hcells; [|done].
    apply lookup_lt_Some in He. lia.
Qed.

(** C9.  [record_embeddings] always completes; it does not touch the
    worksheet ['Q&A']; on the worksheet ['info'] it changes no cell outside
    columns 3 ([num_tokens]) and 4 ([embeddings]) of the rows
    [2 .. len(df) + 1], so the section column, the content column and the
    header row stay as they were; and the cells it does write hold
    [str(num_tokens)] and [str(embeddings)] of the matching row. *)
Theorem record_embeddings_frame (df : list entry) (wb : workbook) :
  ∃ wb', record_embeddings df wb = OK wb'
    ∧ qa wb' = qa wb
    ∧ (∀ r c, c ≠ 3 ∧ c ≠ 4 ∨ r < 2 ∨ length df + 2 ≤ r →
              cell (info wb') r c = cell (info wb) r c)
    ∧ (∀ r, cell (info wb') r 1 = cell (info wb) r 1
            ∧ cell (info wb') r 2 = cell (info wb) r 2)
    ∧ (∀ c, cell (info wb') 1 c = cell (info wb) 1 c)
    ∧ (∀ row e, df !! row = Some e →
         cell (info wb') (row + 2) 3 = str_num_tokens (num_tokens e)
         ∧ cell (info wb') (row + 2) 4 = str_embeddings (embeddings e)).
Proof.
  destruct (record_embeddings_cells df wb)
    as (wb' & Hrun & Hqa & Hframe & Hcells).
  exists wb'. do 3 (split; [done|]). split; [|split; [|done]].
  - intros r. split; apply Hframe; lia.
  - intros c. apply Hframe. lia.
Qed.

End Store.

(** ** Ranking *)

Section Ranking.
Context `{RT : Runtime}.
Import ResultFacts.

Lemma vector_similarity_Raise x y e :
  vector_similarity x y = Raise e → e = TypeError ∨ e = ValueError.
Proof.
  unfold vector_similarity. destruct x as [v|]; [|intros [= <-]; by left].
  case_decide; [done|]. intros [= <-]. by right.
Qed.

Lemma vector_similarity_OK x y s :
  vector_similarity x y = OK s ↔
  ∃ v, x = Some v ∧ length (np_array v) = length (np_array y)
       ∧ s = np_dot (np_array v) (np_array y).
Proof.
  unfold vector_similarity. destruct x as [v|].
  - case_decide.
    + split; [intros [= <-]; eauto|]. by intros (? & [= <-] & _ & ->).
    + split; [done|]. by intros (? & [= <-] & ? & _).
  - split; [done|]. by intros (? & ? & _).
Qed.

(** What a ranking that returns has computed. *)
Lemma order_entries_by_similarity_OK query (df : list entry) method out :
  order_entries_by_similarity query df method = OK out ↔
  ∃ query_embedding sims,
    get_embeddings query method = OK query_embedding
    ∧ Forall2 (λ e s, vector_similarity (embeddings e) query_embedding = OK s)
        df sims
    ∧ out = sort_values_desc similarity (zip_with Ranked df sims).
Proof.
  unfold order_entries_by_similarity. rewrite bind_OK.
  split.
  - intros (qe & Hqe & (sims & Hsims%traverse_OK & [= <-])%bind_OK).
    by exists qe, sims.
  - intros (qe & sims & Hqe & Hsims%traverse_OK & ->).
    exists qe. split; [done|]. apply bind_OK. by exists sims.
Qed.

(** C4.  When some entry has no embedding (the value [''] that
    [parse_numbers] gives for an empty cell) the ranking raises and returns
    nothing.  With the query embedding at hand the exception comes from
    [np.dot]: it is [TypeError] or [ValueError], and it is the [TypeError]
    of the missing embedding whenever the rows before it have vectors of
    the dimension of the query. *)
Theorem ranking_raises_without_embedding query (df : list entry) method :
  Exists (λ e, embeddings e = None) df →
  raised (order_entries_by_similarity query df method)
  ∧ (∀ qe, get_embeddings query method = OK qe →
       order_entries_by_similarity query df method = Raise TypeError
       ∨ order_entries_by_similarity query df method = Raise ValueError)
  ∧ (∀ qe good e rest,
       get_embeddings query method = OK qe →
       df = good ++ e :: rest →
       Forall (λ g, ∃ v, embeddings g = Some v
                         ∧ length (np_array v) = length (np_array qe)) good →
       embeddings e = None →
       order_entries_by_similarity query df method = Raise TypeError).
Proof.
  intros Hex. unfold order_entries_by_similarity.
  destruct (get_embeddings query method) as [qe|e0] eqn:Hqe; cbn.
  - assert (raised (traverse
      (λ e, vector_similarity (embeddings e) qe) df)) as [e1 He1].
    { apply traverse_raised. eapply Exists_impl; [done|].
      intros e He. exists TypeError. by rewrite He. }
    rewrite He1. cbn. split; [by exists e1|]. split.
    + intros ? _.
      apply traverse_Raise in He1 as (? & x & ? & ? & _ & _ & Hx).
      apply vector_similarity_Raise in Hx as [->| ->]; eauto.
    + intros qe' good e rest [= <-] -> Hgood He.
      assert (traverse (λ e, vector_similarity (embeddings e) qe)
                (good ++ e :: rest) = Raise TypeError) as Hty.
      { assert (∃ ys, Forall2
          (λ e s, vector_similarity (embeddings e) qe = OK s) good ys)
          as [ys Hys].
        { clear -Hgood. induction Hgood as [|g good (v & Hv & Hl) _ [ys IH]].
          - by exists [].
          - exists (np_dot (np_array v) (np_array qe) :: ys).
            constructor; [|done]. apply vector_similarity_OK. eauto. }
        apply traverse_Raise. exists good, e, rest, ys.
        split; [done|]. split; [by apply traverse_OK|]. by rewrite He. }
      rewrite Hty in He1. by injection He1 as <-.
  - split; [by exists e0|]. split; intros; done.
Qed.

End Ranking.

(** ** Packing the prompt *)

Section Prompt.
Context `{RT : Runtime}.
Import ResultFacts.

Lemma total_cost_cons sep r rows :
  total_cost sep (r :: rows) = (section_cost sep r + total_cost sep rows)%Z.
Proof. reflexivity. Qed.

(** The loop, started in any state: it packs a prefix of the rows that are
    left, and the prefix is the longest one whose running total stays
    within the limit at every step. *)
Lemma pack_sections_spec MAX sep (df : list ranked_entry) :
  ∀ chosen total,
  Forall has_num_tokens df →
  ∃ k,
    k ≤ length df
    ∧ pack_sections MAX sep df chosen total =
      OK (chosen ++ (section_text <$> take k df),
          (total + total_cost sep (take (S k `min` length df) df))%Z)
    ∧ (∀ j, 1 ≤ j ≤ k → (total + total_cost sep (take j df) ≤ MAX)%Z)
    ∧ (k < length df → (MAX < total + total_cost sep (take (S k) df))%Z).
Proof.
  induction df as [|r df IH]; intros chosen total Hdf.
  - exists 0. simpl. rewrite app_nil_r, Z.add_0_r.
    repeat split; [done|intros; lia|lia].
  - inversion Hdf as [|?? [n Hn] Hdf']; subst.
    assert (section_cost sep r = (n + sep)%Z) as Hcost.
    { unfold section_cost. by rewrite Hn. }
    simpl pack_sections. rewrite Hn.
    destruct (Z.gtb_spec (total + (n + sep)) MAX) as [Hgt|Hle].
    + exists 0. simpl take. rewrite fmap_nil, app_nil_r.
      rewrite total_cost_cons, Hcost. simpl total_cost. rewrite Z.add_0_r.
      repeat split; [simpl; lia|intros; lia|lia].
    + destruct (IH (chosen ++ [section_text r]) (total + (n + sep))%Z Hdf')
        as (k & Hk & Hpack & Hfit & Hcut).
      exists (S k). split; [simpl; lia|]. split; [|split].
      * fold (section_text r). rewrite Hpack. f_equal. f_equal.
        -- by rewrite <-app_assoc.
        -- change (S (S k) `min` length (r :: df))
             with (S (S k `min` length df)).
           rewrite firstn_cons, total_cost_cons, Hcost. lia.
      * intros j Hj. destruct j as [|j]; [lia|].
        rewrite firstn_cons, total_cost_cons, Hcost.
        destruct j as [|j]; [simpl; lia|].
        specialize (Hfit (S j)). lia.
      * intros Hlt. rewrite firstn_cons, total_cost_cons, Hcost.
        simpl in Hlt. specialize (Hcut ltac:(lia)). lia.
Qed.

(** A row without [num_tokens] that the loop reaches makes it raise. *)
Lemma pack_sections_TypeError MAX sep r (df : list ranked_entry) chosen total :
  num_tokens (ranked r) = None →
  pack_sections MAX sep (r :: df) chosen total = Raise TypeError.
Proof. intros H. simpl. by rewrite H. Qed.




End Prompt.

(** ** The question and answer log *)

Section Log.
Import ResultFacts SheetFacts.

Lemma DataFrame_OK rows columns :
  Forall (λ r, length r = columns) rows → DataFrame rows columns = OK rows.
Proof.
  intros H. unfold DataFrame.
  assert (forallb (λ r, length r =? columns) rows = true) as ->; [|done].
  induction H as [|r rows Hr _ IH]; [done|].
  simpl. rewrite IH. by apply Nat.eqb_eq in Hr as ->.
Qed.

Lemma DataFrame_ValueError rows columns :
  Exists (λ r, length r ≠ columns) rows →
  DataFrame rows columns = Raise ValueError.
Proof.
  intros H. unfold DataFrame.
  assert (forallb (λ r, length r =? columns) rows = false) as ->; [|done].
  induction H as [r rows Hr|r rows _ IH]; simpl.
  - by apply Nat.eqb_neq in Hr as ->.
  - rewrite IH. apply andb_false_r.
Qed.

Lemma isdigit_digit n : n < 10 → isdigit (digit n) = true.
Proof.
  intros H. do 10 (destruct n as [|n]; [done|]). lia.
Qed.

Lemma isdigit_decimal z : isdigit (digit (Z.to_nat (z mod 10))) = true.
Proof.
  apply isdigit_digit.
  pose proof (Z.mod_pos_bound z 10 ltac:(lia)). lia.
Qed.

Lemma strftime_Ymd_is_Ymd d : is_Ymd (strftime_Ymd d) = true.
Proof.
  unfold strftime_Ymd, four_digits, two_digits.
  repeat (rewrite PyFacts.append_cons || rewrite PyFacts.append_nil_l).
  unfold is_Ymd. by rewrite !isdigit_decimal.
Qed.

Lemma strftime_Ymd_nonempty d : strftime_Ymd d ≠ EmptyString.
Proof. done. Qed.

(** Writing one row of three cells below the last row of a worksheet with
    three columns adds that row to what [get_all_values] shows. *)
Lemma append_row (s : worksheet) a b c :
  ncols s = 3 → a ≠ EmptyString →
  let r := nrows s + 1 in
  let s' := update_cell r 3 c (update_cell r 2 b (update_cell r 1 a s)) in
  nrows s' = r ∧ ncols s' = 3
  ∧ get_all_values s' = get_all_values s ++ [[a; b; c]].
Proof.
  intros Hcols Ha r s'.
  assert (∀ r' c', r' ≠ r → cell s' r' c' = cell s r' c') as Hold.
  { intros r' c' Hr. unfold s'.
    rewrite !cell_update_cell_ne; [done|intros [= ? ?]; lia..]. }
  assert (cell s' r 1 = a ∧ cell s' r 2 = b ∧ cell s' r 3 = c)
    as (Ha' & Hb' & Hc').
  { unfold s'. split; [|split].
    - rewrite !cell_update_cell_ne by (intros [= ? ?]; lia).
      apply cell_update_cell_eq.
    - rewrite cell_update_cell_ne by (intros [= ? ?]; lia).
      apply cell_update_cell_eq.
    - apply cell_update_cell_eq. }
  assert (∀ r' c', cell s' r' c' ≠ EmptyString → r' ≤ r ∧ c' ≤ 3) as Hb.
  { intros r' c' H. destruct (decide (r' = r)) as [->|Hr].
    - split; [done|]. unfold s' in H.
      rewrite !cell_update_cell in H.
      repeat case_decide; simplify_eq; try lia.
      rewrite beyond_nrows in H; [done|unfold r; lia].
    - rewrite Hold in H by done.
      pose proof (nrows_ge _ _ _ H). pose proof (ncols_ge _ _ _ H). lia. }
  assert (nrows s' = r) as Hrows.
  { apply nrows_intro; [intros ?? H; by apply Hb in H as [??]|].
    right. exists 1. by rewrite Ha'. }
  assert (ncols s' = 3) as Hcols'.
  { apply ncols_intro; [intros ?? H; by apply Hb in H as [??]|].
    right. destruct (ncols_reached s) as [r' Hr']; [lia|].
    exists r'. rewrite Hcols in Hr'. rewrite Hold; [done|].
    apply nrows_ge in Hr'. lia. }
  split; [done|]. split; [done|].
  unfold get_all_values. rewrite Hrows, Hcols', Hcols. unfold r.
  rewrite seq_app, fmap_app. f_equal.
  - apply block_ext. intros. apply Hold. lia.
  - assert (seq (1 + nrows s) 1 = [r]) as ->
      by (unfold r; simpl; f_equal; lia).
    simpl. by rewrite Ha', Hb', Hc'.
Qed.

(** The cells that [record_question_answer] writes and the ones it leaves
    alone, on a log with a header row and three columns. *)
Lemma record_question_answer_cells query answer today (wb : workbook) :
  1 ≤ nrows (qa wb) → ncols (qa wb) = 3 →
  let n := length (tail (get_all_values (qa wb))) in
  ∃ wb',
    record_question_answer query answer today wb = OK wb'
    ∧ info wb' = info wb
    ∧ n + 2 = nrows (qa wb) + 1
    ∧ (∀ c, cell (qa wb) (n + 2) c = EmptyString)
    ∧ cell (qa wb') (n + 2) 1 = strftime_Ymd today
    ∧ cell (qa wb') (n + 2) 2 = query
    ∧ cell (qa wb') (n + 2) 3 = answer
    ∧ (∀ r c, r ≠ n + 2 ∨ 4 ≤ c ∨ c = 0 →
              cell (qa wb') r c = cell (qa wb) r c)
    ∧ get_all_values (qa wb') =
      get_all_values (qa wb) ++ [[strftime_Ymd today; query; answer]].
Proof.
  intros Hrows Hcols n.
  assert (n + 2 = nrows (qa wb) + 1) as Hn.
  { unfold n. pose proof (length_get_all_values (qa wb)) as Hl.
    destruct (get_all_values (qa wb)); simpl in *; lia. }
  set (s' := update_cell (n + 2) 3 answer
               (update_cell (n + 2) 2 query
                  (update_cell (n + 2) 1 (strftime_Ymd today) (qa wb)))).
  exists (Workbook (info wb) s').
  split.
  { unfold record_question_answer. apply bind_OK. exists (qa wb).
    split; [done|]. apply bind_OK.
    exists (tail (get_all_values (qa wb))). split; [|done].
    apply DataFrame_OK, Forall_tail.
    rewrite <-Hcols. apply get_all_values_widths. }
  split; [done|]. split; [done|]. split.
  { intros c. apply beyond_nrows. lia. }
  simpl qa. unfold s'.
  split; [|split; [|split; [|split]]].
  - rewrite !cell_update_cell_ne by (intros [= ? ?]; lia).
    apply cell_update_cell_eq.
  - rewrite cell_update_cell_ne by (intros [= ? ?]; lia).
    apply cell_update_cell_eq.
  - apply cell_update_cell_eq.
  - intros r c Hrc.
    rewrite !cell_update_cell_ne; [done|intros [= ? ?]; lia..].
  - rewrite Hn.
    by apply (append_row (qa wb) (strftime_Ymd today) query answer).
Qed.

(** A log with data rows that are not three cells wide cannot be turned
    into the frame with the columns [date], [query] and [answer]. *)
Lemma record_question_answer_ValueError query answer today (wb : workbook) :
  2 ≤ nrows (qa wb) → ncols (qa wb) ≠ 3 →
  record_question_answer query answer today wb = Raise ValueError.
Proof.
  intros Hrows Hcols. unfold record_question_answer.
  apply bind_Raise. right. exists (qa wb). split; [done|].
  apply bind_Raise. left. apply DataFrame_ValueError.
  pose proof (get_all_values_widths (qa wb)) as Hw.
  pose proof (length_get_all_values (qa wb)) as Hl.
  destruct (get_all_values (qa wb)) as [|h [|r rows]]; simpl in *; [lia..|].
  apply Exists_cons_hd. inversion Hw as [|?? _ Hw']; subst.
  inversion Hw' as [|?? Hr _]; subst. by rewrite Hr.
Qed.

(** C8.  On a log with its header row and its three columns,
    [record_question_answer] completes and leaves the worksheet ['info']
    alone.  With [n] data rows below the header, it writes the date, the
    query and the answer into columns 1, 2 and 3 of row [n + 2], which is
    the row count plus one and was empty; no other cell changes, so the log
    shows one more row, [[date, query, answer]], at its end.  The date is
    written as [YYYY-MM-DD].  On a log without data rows the result has
    exactly one data row. *)
Theorem record_question_answer_appends query answer today (wb : workbook) :
  1 ≤ nrows (qa wb) → ncols (qa wb) = 3 →
  let n := length (tail (get_all_values (qa wb))) in
  ∃ wb',
    record_question_answer query answer today wb = OK wb'
    ∧ info wb' = info wb
    ∧ n + 2 = nrows (qa wb) + 1
    ∧ (∀ c, cell (qa wb) (n + 2) c = EmptyString)
    ∧ cell (qa wb') (n + 2) 1 = strftime_Ymd today
    ∧ cell (qa wb') (n + 2) 2 = query
    ∧ cell (qa wb') (n + 2) 3 = answer
    ∧ (∀ r c, r ≠ n + 2 ∨ 4 ≤ c ∨ c = 0 →
              cell (qa wb') r c = cell (qa wb) r c)
    ∧ get_all_values (qa wb') =
      get_all_values (qa wb) ++ [[strftime_Ymd today; query; answer]]
    ∧ is_Ymd (strftime_Ymd today) = true
    ∧ (n = 0 →
       tail (get_all_values (qa wb')) = [[strftime_Ymd today; query; answer]]).
Proof.
  intros Hrows Hcols n.
  destruct (record_question_answer_cells query answer today wb Hrows Hcols)
    as (wb' & H1 & H2 & H3 & H4 & H5 & H6 & H7 & H8 & H9).
  exists wb'. do 9 (split; [done|]).
  split; [apply strftime_Ymd_is_Ymd|].
  intros Hn. rewrite H9. fold n in H3.
  pose proof (length_get_all_values (qa wb)) as Hl.
  destruct (get_all_values (qa wb)) as [|h [|h' rows]]; simpl in *;
    [lia|done|lia].
Qed.

End Log.

(** ** Writing an embedding and reading it back *)

Section RoundTrip.
Context `{RT : Runtime}.
Import ResultFacts PyFacts.

Lemma py_float_repr x pre :
  reads_back x → all_chars isspace pre = true →
  py_float (pre +:+ float_repr x) = OK x.
Proof.
  intros [(Hne & Hsp & _ & _)%literal_text_spec Hlit] Hpre.
  unfold py_float, strip.
  replace (pre +:+ float_repr x)
    with (pre +:+ float_repr x +:+ EmptyString)
    by (by rewrite append_nil_r).
  rewrite strip_with_sandwich; [|done|done|by apply all_chars_edge_free].
  rewrite Hlit. by destruct (float_repr x).
Qed.

Lemma traverse_py_float_reprs xs :
  Forall reads_back xs →
  traverse py_float (String " " <$> (float_repr <$> xs)) = OK xs.
Proof.
  induction 1 as [|x xs Hx _ IH]; [done|].
  rewrite !fmap_cons, traverse_cons.
  change (String " " (float_repr x)) with (" " +:+ float_repr x).
  rewrite py_float_repr by done. cbn. by rewrite IH.
Qed.

Lemma strip_brackets body :
  all_chars (λ c, negb (mem c "[]")) body = true →
  strip_chars "[]" ("[" +:+ body +:+ "]") = body.
Proof.
  intros H. unfold strip_chars.
  apply strip_with_sandwich; [done..|by apply all_chars_edge_free].
Qed.

(** The list that [str] prints as ["[]"] does not read back. *)
Lemma parse_numbers_empty_list :
  parse_numbers (str_embeddings (Some (PyList []))) = Raise ValueError.
Proof. reflexivity. Qed.

(** An embedding that is absent is written as the empty cell and read
    back as absent. *)
Lemma parse_numbers_absent :
  parse_numbers (str_embeddings None) = OK None.
Proof. reflexivity. Qed.

(** A text without a comma reads back as one number at most, whatever
    the dimension of the array it was printed from. *)
Lemma parse_numbers_without_comma s v :
  all_chars (λ c, negb (ascii_eqb c ",")) (strip_chars "[]" s) = true →
  parse_numbers s = OK v →
  v = None ∨ ∃ y, v = Some (PyList [y]).
Proof.
  intros Hs. unfold parse_numbers.
  destruct (is_empty s); simpl negb; cbv iota; [intros [= <-]; by left|].
  rewrite (split_one _ _ Hs).
  intros (ys & Hys%traverse_OK & [= <-])%bind_OK. right.
  inversion Hys as [|? y ? ys' _ Hnil]; subst. inversion Hnil; subst.
  by exists y.
Qed.

(** The text of a non-empty list reads back as the list. *)
Lemma parse_numbers_str (xs : list float) :
  xs ≠ [] → Forall reads_back xs →
  parse_numbers (str_embeddings (Some (PyList xs))) = OK (Some (PyList xs)).
Proof.
  intros Hne Hxs. destruct xs as [|x xs]; [done|]. clear Hne.
  assert (Forall (λ p, all_chars (λ c, negb (mem c "[]")) p = true
                       ∧ all_chars (λ c, negb (ascii_eqb c ",")) p = true)
            (float_repr <$> (x :: xs))) as Hparts.
  { apply Forall_fmap. eapply Forall_impl; [done|].
    by intros y [(_ & _ & ? & ?)%literal_text_spec _]. }
  unfold parse_numbers, str_embeddings.
  change (is_empty ("[" +:+ ?b)) with false. simpl negb. cbv iota.
  rewrite strip_brackets.
  2:{ apply all_chars_join; [done|].
      eapply Forall_impl; [done|]. by intros p [? _]. }
  rewrite fmap_cons, split_join.
  2:{ rewrite <-fmap_cons. eapply Forall_impl; [done|]. by intros p [_ ?]. }
  rewrite traverse_cons.
  inversion Hxs as [|?? Hx Hxs']; subst.
  rewrite <-(append_nil_l (float_repr x)).
  rewrite py_float_repr by done. cbn.
  by rewrite traverse_py_float_reprs.
Qed.

(** The text of a numpy array has no comma when numpy prints it, so it
    never reads back as an array of two or more numbers. *)
Lemma parse_numbers_ndarray (xs : list float) v :
  all_chars (λ c, negb (ascii_eqb c ",")) (ndarray_str xs) = true →
  parse_numbers (str_embeddings (Some (NdArray xs))) = OK v →
  v = None ∨ ∃ y, v = Some (PyList [y]).
Proof.
  intros H. apply parse_numbers_without_comma.
  by apply all_chars_strip_with.
Qed.


End RoundTrip.

(** ** The order of the ranking *)

Section RankingOrder.
Context `{RT : Runtime}.
Import ResultFacts.


(** The ranking returns when the query has an embedding and every entry
    has one of the same dimension. *)
Lemma order_entries_by_similarity_returns
    query (df : list entry) method query_embedding :
  get_embeddings query method = OK query_embedding →
  Forall (λ e, ∃ v, embeddings e = Some v
                    ∧ length (np_array v) = length (np_array query_embedding))
    df →
  ∃ out, order_entries_by_similarity query df method = OK out.
Proof.
  intros Hqe Hdf.
  destruct (traverse_returns
              (λ e, vector_similarity (embeddings e) query_embedding) df)
    as [sims Hsims].
  { eapply Forall_impl; [done|]. intros e (v & Hv & Hl).
    eexists. apply vector_similarity_OK. eauto. }
  eexists. apply order_entries_by_similarity_OK.
  exists query_embedding, sims. split; [done|]. split; [|done].
  by apply traverse_OK.
Qed.


End RankingOrder.

(** ** Answering a question *)

Section Answer.
Context `{RT : Runtime}.
Import ResultFacts.

Lemma ama_chatbot_OK query (df : list entry) method wb answer prompt :
  (ama_chatbot query df method wb).1 = OK (answer, prompt) ↔
  construct_prompt query df method = OK prompt
  ∧ ∃ text,
      openai_Completion_create
        (CompletionRequest prompt (9 # 10) 300 1 0 0 "text-davinci-003")
      = OK text
      ∧ answer = strip_chars (String " " nl) text.
Proof.
  unfold ama_chatbot. cbn [fst]. rewrite bind_OK. split.
  - intros (p & Hp & (text & Ht & [= <- <-])%bind_OK). eauto.
  - intros (Hp & text & Ht & ->). exists prompt. split; [done|].
    apply bind_OK. by exists text.
Qed.

(** C3, what the code does.  [ama_chatbot] builds the prompt, asks for
    the completion and returns; it never calls [record_question_answer],
    so the workbook, and with it the log ['Q&A'], is the same after the
    call as before, whether the call returns an answer or raises. *)
Theorem ama_chatbot_leaves_log query (df : list entry) method wb :
  (ama_chatbot query df method wb).2 = wb
  ∧ get_all_values (qa (ama_chatbot query df method wb).2)
    = get_all_values (qa wb).
Proof. done. Qed.

End Answer.

(** ** The program on the test doubles *)

Module MockFacts.
Import Mock.
#[local] Existing Instance runtime.

Global Instance key_ge_total {A} (key : A → Z) : Total (key_ge key).
Proof. intros a b. unfold key_ge. lia. Qed.



(** The scenario of the specification: the job ranks first and both
    entries are packed. *)
Example scenario_ranking :
  order_entries_by_similarity (RT := runtime)
    "What do you do?" [hobbies; job] "openai" = OK ranking.
Proof. reflexivity. Qed.

Example scenario_prompt :
  construct_prompt (RT := runtime) "What do you do?" [hobbies; job] "openai"
  = OK (header +:+ SEPARATOR +:+ "I am an engineer."
        +:+ SEPARATOR +:+ "I like chess."
        +:+ nl +:+ nl +:+ " Q: What do you do?" +:+ nl +:+ " A:").
Proof. reflexivity. Qed.

(** With a limit of 5 tokens and entries that cost 6 and 8 tokens plus the
    separator, no section is packed. *)
Example scenario_limit_5 :
  pack_sections (RT := runtime) 5 SEPARATOR_len ranking [] 0 = OK ([], 11%Z).
Proof. reflexivity. Qed.

(** Newlines inside a content are turned into blanks. *)
Example scenario_newline :
  section_text (RT := runtime)
    (Ranked (Entry "Job" ("I am" +:+ nl +:+ "an engineer.") None None) 0%Z)
  = SEPARATOR +:+ "I am an engineer.".
Proof. reflexivity. Qed.

(** With the routine that sorts the reversed frame, two entries of equal
    similarity come out in the other order. *)
Example scenario_twins :
  order_entries_by_similarity (RT := runtime') "q" [twin_a; twin_b] "openai"
  = OK [Ranked twin_b 1%Z; Ranked twin_a 1%Z].
Proof. reflexivity. Qed.

(** A numpy array is printed without commas and does not read back. *)
Example scenario_ndarray :
  str_embeddings (Some (NdArray [1; 2]%Z)) = "[1 2]"
  ∧ parse_numbers (str_embeddings (Some (NdArray [1; 2]%Z)))
    = Raise ValueError.
Proof. split; reflexivity. Qed.

(** An answer comes back and the log still has no record. *)
Example scenario_answer :
  ama_chatbot (RT := runtime) "hi" [hobbies; job] "openai" book
  = (OK ("hello",
         header +:+ SEPARATOR +:+ "I am an engineer."
         +:+ SEPARATOR +:+ "I like chess."
         +:+ nl +:+ nl +:+ " Q: hi" +:+ nl +:+ " A:"), book)
  ∧ tail (get_all_values (qa book)) = [].
Proof. split; reflexivity. Qed.

End MockFacts.

(** ** The theorems at concrete inputs *)

#[local] Existing Instance Mock.runtime.

Lemma get_embeddings_unsupported_method_witness :
  "cohere" ≠ "openai" ∧ "cohere" ≠ "huggingface"
  ∧ get_embeddings (RT := Mock.runtime) "hi" "cohere"
    = Raise UnboundLocalError.
Proof.
  assert ("cohere" ≠ "openai") as H1 by discriminate.
  assert ("cohere" ≠ "huggingface") as H2 by discriminate.
  split; [exact H1|]. split; [exact H2|].
  exact (proj1 (get_embeddings_unsupported_method
                  (RT := Mock.runtime) "hi" "cohere" H1 H2)).
Defined.

Lemma combined_is_template_of_stripped_witness :
  Forall (λ e, ∃ v, get_embeddings (RT := Mock.runtime)
                      (combine (section e) (content e)) "openai" = OK v)
    [Mock.padded]
  ∧ ∃ out,
      add_embeddings (RT := Mock.runtime) [Mock.padded] "openai" = OK out
      ∧ Forall2
          (λ e x, combined x =
                  "Title: " +:+ strip (section e) +:+ "; Content: "
                  +:+ strip (content e)
                  ∧ (edge_free isspace (section e) →
                     edge_free isspace (content e) →
                     combined x =
                     "Title: " +:+ section e +:+ "; Content: "
                     +:+ content e))
          [Mock.padded] out.
Proof.
  assert (Forall (λ e, ∃ v, get_embeddings (RT := Mock.runtime)
                              (combine (section e) (content e)) "openai"
                            = OK v) [Mock.padded]) as H
    by (repeat constructor; eexists; reflexivity).
  split; [exact H|].
  exact (combined_is_template_of_stripped (RT := Mock.runtime)
           [Mock.padded] "openai" H).
Defined.

(** The section [" Hobbies"] and the content ["I like chess. "] give a
    [combined] text that is not the template filled with them as they
    are. *)
Lemma combined_differs_from_raw_template :
  ∃ x,
    add_embeddings (RT := Mock.runtime) [Mock.padded] "openai" = OK [x]
    ∧ combined x = "Title: Hobbies; Content: I like chess."
    ∧ combined x ≠
      "Title: " +:+ section Mock.padded +:+ "; Content: "
      +:+ content Mock.padded.
Proof.
  eexists. split; [reflexivity|]. split; [reflexivity|]. discriminate.
Qed.

Lemma ranking_raises_without_embedding_witness :
  Exists (λ e, embeddings e = None) [Mock.hobbies; Mock.draft]
  ∧ raised (order_entries_by_similarity (RT := Mock.runtime)
              "hi" [Mock.hobbies; Mock.draft] "openai").
Proof.
  assert (Exists (λ e, embeddings e = None) [Mock.hobbies; Mock.draft])
    as H by (apply Exists_cons_tl, Exists_cons_hd; reflexivity).
  split; [exact H|].
  exact (proj1 (ranking_raises_without_embedding
                  (RT := Mock.runtime) "hi" _ "openai" H)).
Defined.



Lemma record_question_answer_appends_witness :
  1 ≤ nrows (qa Mock.book) ∧ ncols (qa Mock.book) = 3
  ∧ ∃ wb',
      record_question_answer "hi" "hello" (Date 2023 2 14) Mock.book = OK wb'
      ∧ tail (get_all_values (qa wb')) = [["2023-02-14"; "hi"; "hello"]].
Proof.
  assert (1 ≤ nrows (qa Mock.book)) as H1 by (vm_compute; lia).
  assert (ncols (qa Mock.book) = 3) as H2 by reflexivity.
  split; [exact H1|]. split; [exact H2|].
  destruct (record_question_answer_appends
              "hi" "hello" (Date 2023 2 14) Mock.book H1 H2)
    as (wb' & Hrun & _ & _ & _ & _ & _ & _ & _ & _ & _ & Hone).
  exists wb'. split; [exact Hrun|]. apply Hone. reflexivity.
Defined.





(** * Further properties *)

(** ** Reading an integer *)

Module IntFacts.
Import PyFacts.

Lemma isdigit_not_space c : isdigit c = true → int_space c = false.
Proof. by destruct c as [[] [] [] [] [] [] [] []]. Qed.

Lemma isdigit_not_sign c :
  isdigit c = true → ascii_eqb c "-" = false ∧ ascii_eqb c "+" = false.
Proof. by destruct c as [[] [] [] [] [] [] [] []]. Qed.

Lemma isdigit_not_underscore c : isdigit c = true → ascii_eqb c "_" = false.
Proof. by destruct c as [[] [] [] [] [] [] [] []]. Qed.

Lemma string_of_uint_digits d :
  all_chars isdigit (NilEmpty.string_of_uint d) = true.
Proof. induction d; simpl; auto. Qed.

(** A run of digits is a literal. *)
Lemma int_digits_all_digits s :
  all_chars isdigit s = true → int_digits AfterDigit s = Some s.
Proof.
  induction s as [|c s IH]; [done|]. simpl.
  intros [Hc Hs]%andb_prop. by rewrite Hc, IH.
Qed.

Lemma int_digits_start c s :
  all_chars isdigit (String c s) = true →
  int_digits AtStart (String c s) = Some (String c s).
Proof.
  simpl. intros [Hc Hs]%andb_prop. by rewrite Hc, int_digits_all_digits.
Qed.

(** What [int] makes of a run of digits, with or without a minus sign. *)
Lemma py_int_digits (negative : bool) d c s :
  NilEmpty.string_of_uint d = String c s →
  String.length (String c s) ≤ int_max_str_digits →
  py_int ((if negative then "-" else EmptyString) +:+ String c s)
  = OK (if negative then - Z.of_uint d else Z.of_uint d)%Z.
Proof.
  intros Hd Hlen.
  pose proof (string_of_uint_digits d) as Hdig. rewrite Hd in Hdig.
  assert (isdigit c = true) as Hc by (simpl in Hdig; by destruct (isdigit c)).
  assert (all_chars (λ c, negb (int_space c)) (String c s) = true) as Hsp.
  { eapply all_chars_impl; [|done]. intros a Ha.
    by rewrite isdigit_not_space. }
  destruct (isdigit_not_sign c Hc) as [Hminus Hplus].
  assert (NilEmpty.uint_of_string (String c s) = Some d) as Hparse
    by (rewrite <-Hd; apply NilEmpty.usu).
  assert ((int_max_str_digits <? String.length (String c s)) = false) as Hlim
    by (by apply Nat.ltb_ge).
  unfold py_int. destruct negative.
  - rewrite strip_with_id.
    2:{ split; [done|].
        change ("-" +:+ String c s) with (String "-" (String c s)).
        rewrite ends_with_cons by done.
        by apply all_chars_edge_free. }
    change ("-" +:+ String c s) with (String "-" (String c s)).
    cbv beta iota. change (ascii_eqb "-" "-") with true. cbv iota.
    by rewrite (int_digits_start _ _ Hdig), Hlim, Hparse.
  - rewrite append_nil_l, strip_with_id by (by apply all_chars_edge_free).
    cbv beta iota. rewrite Hminus, Hplus.
    by rewrite (int_digits_start _ _ Hdig), Hlim, Hparse.
Qed.

(** [int(str(z))] is [z], for an integer that [str] prints in at most
    [int_max_str_digits] characters. *)
Lemma py_int_str_int z :
  String.length (str_int z) ≤ int_max_str_digits →
  py_int (str_int z) = OK z.
Proof.
  unfold str_int. pose proof (DecimalZ.of_to z) as Hz.
  destruct (Z.to_int z) as [d|d] eqn:Hi; simpl in Hz |- *; intros Hlen.
  - destruct (NilEmpty.string_of_uint d) as [|c s] eqn:Hd.
    + destruct d; try discriminate. simpl in *. by subst z.
    + assert (NilZero.string_of_uint d = String c s) as Hs
        by (destruct d; try done; discriminate).
      rewrite Hs in *.
      rewrite <-Hz. by apply (py_int_digits false d c s).
  - destruct (NilEmpty.string_of_uint d) as [|c s] eqn:Hd.
    + destruct d; try discriminate. simpl in *. by subst z.
    + assert (NilZero.string_of_uint d = String c s) as Hs
        by (destruct d; try done; discriminate).
      rewrite Hs in *.
      rewrite <-Hz. apply (py_int_digits true d c s); [done|].
      simpl in Hlen. simpl. lia.
Qed.

Lemma str_int_nonempty z : str_int z ≠ EmptyString.
Proof.
  unfold str_int. destruct (Z.to_int z) as [d|d]; [|done].
  simpl. by destruct d.
Qed.


End IntFacts.

(** ** Loading the knowledge base *)

Section Loading.
Context `{RT : Runtime}.
Import ResultFacts SheetFacts PyFacts.

(** The cells of sheet row [r] as [get_all_values] shows them. *)
Lemma data_rows (s : worksheet) :
  tail (get_all_values s)
  = (λ r, (λ c, cell s r c) <$> seq 1 (ncols s)) <$> seq 2 (nrows s - 1).
Proof.
  unfold get_all_values. destruct (nrows s) as [|n]; [done|].
  replace (S n - 1) with n by lia. by cbn [seq].
Qed.

Lemma data_rows_lookup (s : worksheet) i row :
  tail (get_all_values s) !! i = Some row ↔
  i + 2 ≤ nrows s ∧ row = (λ c, cell s (i + 2) c) <$> seq 1 (ncols s).
Proof.
  rewrite data_rows, list_lookup_fmap_Some. split.
  - intros (r & -> & [-> ?]%lookup_seq). split; [lia|].
    by replace (2 + i) with (i + 2) by lia.
  - intros [Hi ->]. exists (i + 2). split; [done|].
    apply lookup_seq. lia.
Qed.

Lemma length_data_rows (s : worksheet) :
  length (tail (get_all_values s)) = nrows s - 1.
Proof. by rewrite data_rows, length_fmap, length_seq. Qed.

Lemma row_cell (s : worksheet) r j :
  j < ncols s →
  ((λ c, cell s r c) <$> seq 1 (ncols s)) !!! j = cell s r (S j).
Proof.
  intros Hj. apply list_lookup_total_correct.
  by rewrite list_lookup_fmap, lookup_seq_lt.
Qed.

Lemma DataFrame_inv rows columns df :
  DataFrame rows columns = OK df →
  df = rows ∧ Forall (λ r, length r = columns) rows.
Proof.
  unfold DataFrame.
  destruct (forallb _ rows) eqn:Hall; [|done]. intros [= <-].
  split; [done|]. apply Forall_forall. intros r Hr%list_elem_of_In.
  rewrite forallb_forall in Hall. by apply Nat.eqb_eq, Hall.
Qed.

(** [get_data] returns the frame [df] exactly when the sheet has one row
    more than the frame, has four columns unless it has no data row, and
    every row of the frame is what the four cells of its sheet row read
    as. *)
Lemma get_data_OK (wb : workbook) (df : list entry) :
  get_data wb = OK df ↔
  length df = nrows (info wb) - 1
  ∧ (nrows (info wb) ≤ 1 ∨ ncols (info wb) = 4)
  ∧ ∀ i e, df !! i = Some e → loaded (info wb) i e.
Proof.
  set (s := info wb). set (rows := tail (get_all_values s)).
  assert (∀ i row, rows !! i = Some row → ncols s = 4 →
            row !!! 0 = cell s (i + 2) 1 ∧ row !!! 1 = cell s (i + 2) 2
            ∧ row !!! 2 = cell s (i + 2) 3 ∧ row !!! 3 = cell s (i + 2) 4)
    as Hcells.
  { intros i row [_ ->]%data_rows_lookup Hc.
    rewrite !row_cell by lia. done. }
  assert (Forall (λ r, length r = ncols s) rows) as Hwidths
    by apply Forall_tail, get_all_values_widths.
  unfold get_data. rewrite bind_OK. split.
  - intros (s' & [= <-] & (df0 & [-> Hw]%DataFrame_inv & H)%bind_OK).
    fold s rows in H, Hw.
    apply bind_OK in H as (embs & Hembs%traverse_OK & H).
    apply bind_OK in H as (nums & Hnums%traverse_OK & [= <-]).
    pose proof (Forall2_length _ _ _ Hembs) as Hl1.
    pose proof (Forall2_length _ _ _ Hnums) as Hl2.
    assert (nrows s ≤ 1 ∨ ncols s = 4) as Hshape.
    { destruct rows as [|r rows'] eqn:Hrows; [left|right].
      - pose proof (length_data_rows s) as Hl. fold rows in Hl.
        rewrite Hrows in Hl. simpl in Hl. lia.
      - inversion Hw; inversion Hwidths; subst. congruence. }
    split; [|split; [done|]].
    + rewrite length_zip_with_l_eq, <-(length_data_rows s); [done|].
      rewrite length_zip. fold rows. lia.
    + intros i e (row & [n v] & -> & Hrow & Hnv)%lookup_zip_with_Some.
      apply lookup_zip_with_Some in Hnv as (? & ? & [= <- <-] & Hn & Hv).
      assert (ncols s = 4) as Hc.
      { destruct Hshape as [Hs|]; [|done].
        apply data_rows_lookup in Hrow as [? _]. fold s in Hs. lia. }
      destruct (Hcells i row Hrow Hc) as (H0 & H1 & H2 & H3).
      pose proof (Forall2_lookup_lr _ _ _ _ _ _ Hembs Hrow Hv) as He.
      pose proof (Forall2_lookup_lr _ _ _ _ _ _ Hnums Hrow Hn) as Hnum.
      simpl in He, Hnum. rewrite H3 in He. rewrite H2 in Hnum.
      unfold loaded. simpl. by rewrite H0, H1.
  - intros (Hlen & Hshape & Hdf). exists s. split; [done|].
    assert (length rows = length df) as Hrl
      by (unfold rows; rewrite length_data_rows; fold s; lia).
    assert (∀ i row, rows !! i = Some row → ncols s = 4) as Hc.
    { intros i row [Hi _]%data_rows_lookup.
      destruct Hshape as [Hs|]; [fold s in Hs; lia|done]. }
    apply bind_OK. exists rows. split.
    { apply DataFrame_OK. apply Forall_lookup. intros i row Hrow.
      rewrite <-(Hc i row Hrow).
      eapply Forall_lookup_1 in Hwidths; done. }
    apply bind_OK. exists (embeddings <$> df). split.
    { apply traverse_OK, Forall2_fmap_r, Forall2_same_length_lookup_2;
        [done|].
      intros i row e Hrow He.
      destruct (Hcells i row Hrow (Hc i row Hrow)) as (_ & _ & _ & ->).
      by destruct (Hdf i e He) as (_ & _ & _ & ?). }
    apply bind_OK. exists (num_tokens <$> df). split.
    { apply traverse_OK, Forall2_fmap_r, Forall2_same_length_lookup_2;
        [done|].
      intros i row e Hrow He.
      destruct (Hcells i row Hrow (Hc i row Hrow)) as (_ & _ & -> & _).
      by destruct (Hdf i e He) as (_ & _ & ? & _). }
    f_equal. symmetry. apply (list_eq_same_length _ _ (length df)).
    + rewrite length_zip_with_l_eq; [done|].
      rewrite length_zip, !length_fmap. lia.
    + done.
    + intros i e e' Hi He He'.
      apply lookup_zip_with_Some in He'
        as (row & [n v] & -> & Hrow & Hnv).
      apply lookup_zip_with_Some in Hnv as (? & ? & [= <- <-] & Hn & Hv).
      rewrite list_lookup_fmap, He in Hn. rewrite list_lookup_fmap, He in Hv.
      injection Hn as <-. injection Hv as <-.
      destruct (Hcells i row Hrow (Hc i row Hrow)) as (-> & -> & _ & _).
      destruct (Hdf i e He) as (<- & <- & _ & _). by destruct e.
Qed.

End Loading.

(** ** Saving and loading again *)

Section StoreRoundTrip.
Context `{RT : Runtime}.
Import ResultFacts SheetFacts PyFacts IntFacts.

(** Worksheets with the same cells have the same extent. *)
Lemma nrows_ext (s s' : worksheet) :
  (∀ r c, cell s' r c = cell s r c) → nrows s' = nrows s.
Proof.
  intros H. apply nrows_intro.
  - intros r c Hc. rewrite H in Hc. by eapply nrows_ge.
  - destruct (decide (nrows s = 0)) as [|Hn]; [by left|right].
    destruct (nrows_reached s Hn) as [c Hc]. exists c. by rewrite H.
Qed.

Lemma parse_num_tokens_str (n : option Z) :
  (∀ z, n = Some z → short_int z) →
  parse_num_tokens (str_num_tokens n) = OK n.
Proof.
  intros Hn. destruct n as [z|]; [|done].
  unfold parse_num_tokens, str_num_tokens.
  assert (is_empty (str_int z) = false) as ->.
  { pose proof (str_int_nonempty z). by destruct (str_int z). }
  simpl negb. cbv iota.
  by rewrite py_int_str_int by (by apply Hn).
Qed.

Lemma parse_numbers_storable (e : entry) :
  storable e → parse_numbers (str_embeddings (embeddings e)) = OK (embeddings e).
Proof.
  intros [_ [->|(xs & -> & Hne & Hxs)]]; [done|by apply parse_numbers_str].
Qed.

(** The extent of the worksheet ['info'] after [record_embeddings], and
    what [get_data] then returns. *)
Lemma get_data_after_record (df : list entry) (wb wb' : workbook) :
  record_embeddings df wb = OK wb' →
  nrows (info wb) ≤ length df + 1 →
  (df = [] ∨ ncols (info wb) ≤ 4 ∧ ∃ r, cell (info wb') r 4 ≠ EmptyString) →
  Forall storable df →
  (∀ i e, df !! i = Some e →
     section e = cell (info wb) (i + 2) 1
     ∧ content e = cell (info wb) (i + 2) 2) →
  get_data wb' = OK df.
Proof.
  intros Hrun Hrows Hwit Hdf Hsheet.
  destruct (record_embeddings_cells df wb) as (wb0 & Hrun0 & _ & Hframe & Hcells).
  assert (wb0 = wb') as -> by congruence. clear Hrun0.
  set (s := info wb) in *. set (s' := info wb') in *.
  assert (∀ i e, df !! i = Some e → loaded s' i e) as Hloaded.
  { intros i e He. destruct (Hcells i e He) as [H3 H4].
    destruct (Hsheet i e He) as [H1 H2].
    pose proof (Forall_lookup_1 _ _ _ _ Hdf He) as Hst.
    unfold loaded. rewrite H3, H4, !Hframe by lia.
    split; [done|]. split; [done|]. split.
    - apply parse_num_tokens_str. intros z Hz.
      destruct Hst as [(n & Hn & Hshort) _]. congruence.
    - by apply parse_numbers_storable. }
  apply get_data_OK. fold s'.
  destruct (decide (df = [])) as [->|Hne].
  - assert (nrows s' = nrows s) as Hr.
    { apply nrows_ext. intros r c. apply Hframe. simpl. lia. }
    simpl in *. split; [lia|]. split; [left; lia|]. by intros i e.
  - assert (nrows s' = length df + 1) as Hr.
    { apply nrows_intro.
      - intros r c Hc.
        destruct (decide (r ≤ length df + 1)) as [|Hbig]; [done|].
        rewrite Hframe in Hc by lia.
        apply nrows_ge in Hc. fold s in Hrows. lia.
      - right. exists 3.
        destruct (lookup_lt_is_Some_2 df (length df - 1)) as [e He].
        { destruct df; [done|simpl; lia]. }
        destruct (Hcells _ e He) as [H3 _].
        replace (length df - 1 + 2) with (length df + 1) in H3
          by (destruct df; [done|simpl; lia]).
        rewrite H3.
        destruct (Forall_lookup_1 _ _ _ _ Hdf He) as [(n & -> & _) _].
        apply str_int_nonempty. }
    split; [lia|]. split; [right|done].
    destruct Hwit as [|[Hcols Hwit]]; [done|].
    apply ncols_intro; [|by right].
    intros r c Hc.
    destruct (decide (c = 3 ∨ c = 4)) as [|Hother]; [lia|].
    rewrite Hframe in Hc by lia.
    apply ncols_ge in Hc. fold s in Hcols. lia.
Qed.




(** X2.  On a worksheet ['info'] with its header row only, or with no
    text at all, [get_data] returns the empty frame, whatever the number
    of columns. *)
Theorem get_data_without_rows (wb : workbook) :
  nrows (info wb) ≤ 1 → get_data wb = OK [].
Proof.
  intros H. apply get_data_OK. simpl. split; [lia|]. split; [by left|].
  by intros i e.
Qed.



(** X4.  A token count is written by [str] as a text that [int] reads
    back as the same count, as long as the text has no more digits than
    [int] accepts.  So after [record_embeddings] the cell in column 3 of
    the row of an entry reads back as the token count of the entry. *)
Theorem num_tokens_round_trip (n : Z) :
  short_int n →
  parse_num_tokens (str_num_tokens (Some n)) = OK (Some n)
  ∧ ∀ (df : list entry) wb row e,
      df !! row = Some e → num_tokens e = Some n →
      ∃ wb', record_embeddings df wb = OK wb'
        ∧ parse_num_tokens (cell (info wb') (row + 2) 3) = OK (Some n).
Proof.
  intros Hn.
  assert (parse_num_tokens (str_num_tokens (Some n)) = OK (Some n)) as Hread.
  { apply parse_num_tokens_str. by intros z [= <-]. }
  split; [done|]. intros df wb row e Hrow He.
  destruct (record_embeddings_cells df wb) as (wb' & Hrun & _ & _ & Hcells).
  exists wb'. split; [done|].
  destruct (Hcells row e Hrow) as [-> _]. by rewrite He.
Qed.

(** X5.  Saving and loading agree.  Take a worksheet ['info'] with four
    columns and the title of the fourth in its header, and a frame whose
    rows carry the sections and contents of the sheet rows below the
    header, a token count, and an embedding that is absent or a Python
    list, not empty, of numbers that read back.  Then [record_embeddings]
    followed by [get_data] returns that frame. *)
Theorem record_embeddings_then_get_data (df : list entry) (wb : workbook) :
  ncols (info wb) = 4 → cell (info wb) 1 4 ≠ EmptyString →
  nrows (info wb) ≤ length df + 1 →
  Forall storable df →
  (∀ i e, df !! i = Some e →
     section e = cell (info wb) (i + 2) 1
     ∧ content e = cell (info wb) (i + 2) 2) →
  ∃ wb', record_embeddings df wb = OK wb' ∧ get_data wb' = OK df.
Proof.
  intros Hcols Hhead Hrows Hdf Hsheet.
  destruct (record_embeddings_cells df wb) as (wb' & Hrun & _ & Hframe & _).
  exists wb'. split; [done|]. eapply get_data_after_record; try done.
  right. split; [lia|]. exists 1. by rewrite Hframe by lia.
Qed.

(** *** Updating the knowledge base *)

Lemma update_data_OK method (wb wb' : workbook) :
  update_data method wb = OK wb' ↔
  ∃ df out, get_data wb = OK df ∧ add_embeddings df method = OK out
            ∧ record_embeddings (base <$> out) wb = OK wb'.
Proof.
  unfold update_data. rewrite bind_OK. split.
  - intros (df & Hdf & (out & Hout & H)%bind_OK). eauto.
  - intros (df & out & Hdf & Hout & H). exists df. split; [done|].
    apply bind_OK. eauto.
Qed.

(** What [update_data] writes, row by row, when the backend answers. *)
Lemma update_data_cells method (wb : workbook) (df : list entry) :
  get_data wb = OK df →
  Forall (λ e, ∃ v, get_embeddings (combine (section e) (content e)) method
                    = OK v) df →
  ∃ out wb',
    add_embeddings df method = OK out
    ∧ record_embeddings (base <$> out) wb = OK wb'
    ∧ update_data method wb = OK wb'
    ∧ length out = nrows (info wb) - 1
    ∧ qa wb' = qa wb
    ∧ (∀ r c, c ≠ 3 ∧ c ≠ 4 ∨ r < 2 ∨ nrows (info wb) < r →
         cell (info wb') r c = cell (info wb) r c)
    ∧ ∀ r, 2 ≤ r ≤ nrows (info wb) →
        let text := combine (cell (info wb) r 1) (cell (info wb) r 2) in
        ∃ x v, out !! (r - 2) = Some x
          ∧ combined x = text
          ∧ section (base x) = cell (info wb) r 1
          ∧ content (base x) = cell (info wb) r 2
          ∧ num_tokens (base x)
            = Some (Z.of_nat (length (tokenizer_encode text)))
          ∧ embeddings (base x) = Some v
          ∧ get_embeddings text method = OK v
          ∧ cell (info wb') r 3
            = str_int (Z.of_nat (length (tokenizer_encode text)))
          ∧ cell (info wb') r 4 = str_embeddings (Some v).
Proof.
  intros Hdf Hback.
  destruct (add_embeddings_returns df method Hback) as [out Hout].
  destruct (record_embeddings_cells (base <$> out) wb)
    as (wb' & Hrec & Hqa & Hframe & Hcells).
  exists out, wb'. split; [done|]. split; [done|]. split.
  { apply update_data_OK. eauto. }
  apply add_embeddings_rows in Hout.
  pose proof (Forall2_length _ _ _ Hout) as Hlen.
  apply get_data_OK in Hdf as (Hlen' & _ & Hload).
  rewrite length_fmap in Hframe.
  split; [lia|]. split; [done|]. split.
  { intros r c Hrc. apply Hframe. lia. }
  intros r Hr text.
  destruct (lookup_lt_is_Some_2 df (r - 2)) as [e He]; [lia|].
  destruct (Forall2_lookup_l _ _ _ _ _ Hout He)
    as (x & Hx & Hc & Hs & Hct & Hn & v & Hv & Hev).
  destruct (Hload _ _ He) as (Hs' & Hct' & _).
  replace (r - 2 + 2) with r in Hs', Hct' by lia.
  assert (combined x = text) as Htext.
  { unfold text. by rewrite Hc, Hs', Hct'. }
  destruct (Hcells (r - 2) (base x)) as [H3 H4].
  { by rewrite list_lookup_fmap, Hx. }
  replace (r - 2 + 2) with r in H3, H4 by lia.
  rewrite Htext in *.
  exists x, v. rewrite H3, H4, Hn, Hev. repeat split; congruence.
Qed.

(** X6.  When [get_data] reads the knowledge base and the backend
    answers for every row, [update_data] completes.  It leaves the
    worksheet ['Q&A'], the header row, the section and content columns
    and every row below the data alone; in each data row it writes into
    column 3 the number of tokens of
    ["Title: " + section.strip() + "; Content: " + content.strip()] and
    into column 4 the text of the embedding of that same string. *)
Theorem update_data_writes method (wb : workbook) (df : list entry) :
  get_data wb = OK df →
  Forall (λ e, ∃ v, get_embeddings (combine (section e) (content e)) method
                    = OK v) df →
  ∃ wb',
    update_data method wb = OK wb'
    ∧ qa wb' = qa wb
    ∧ (∀ r c, c ≠ 3 ∧ c ≠ 4 ∨ r < 2 ∨ nrows (info wb) < r →
         cell (info wb') r c = cell (info wb) r c)
    ∧ ∀ r, 2 ≤ r ≤ nrows (info wb) →
        let text := combine (cell (info wb) r 1) (cell (info wb) r 2) in
        cell (info wb') r 3
        = str_int (Z.of_nat (length (tokenizer_encode text)))
        ∧ ∃ v, get_embeddings text method = OK v
               ∧ cell (info wb') r 4 = str_embeddings (Some v).
Proof.
  intros Hdf Hback.
  destruct (update_data_cells method wb df Hdf Hback)
    as (out & wb' & _ & _ & Hrun & _ & Hqa & Hframe & Hcells).
  exists wb'. do 3 (split; [done|]).
  intros r Hr text.
  destruct (Hcells r Hr) as (x & v & _ & _ & _ & _ & _ & _ & Hv & H3 & H4).
  split; [done|]. by exists v.
Qed.

(** With the remote backend, what [update_data] has written is read by
    [get_data] as the frame that [add_embeddings] computed. *)
Lemma update_data_openai_reload (wb : workbook) (df : list entry) :
  get_data wb = OK df →
  Forall (λ e, ∃ xs,
            openai_Embedding_create "text-embedding-ada-002"
              (combine (section e) (content e)) = OK xs
            ∧ xs ≠ [] ∧ Forall reads_back xs) df →
  Forall (λ e, short_int (Z.of_nat (length (tokenizer_encode
                                (combine (section e) (content e)))))) df →
  ∃ out wb',
    add_embeddings df "openai" = OK out
    ∧ update_data "openai" wb = OK wb'
    ∧ get_data wb' = OK (base <$> out)
    ∧ ∀ i x, out !! i = Some x →
        ∃ e xs, df !! i = Some e
          ∧ combined x = combine (section e) (content e)
          ∧ num_tokens (base x)
            = Some (Z.of_nat (length (tokenizer_encode (combined x))))
          ∧ embeddings (base x) = Some (PyList xs)
          ∧ openai_Embedding_create "text-embedding-ada-002" (combined x)
            = OK xs.
Proof.
  intros Hdf Hback Hshort.
  assert (Forall (λ e, ∃ v, get_embeddings (combine (section e) (content e))
                              "openai" = OK v) df) as Hback'.
  { eapply Forall_impl; [exact Hback|]. intros e (xs & Hxs & _).
    exists (PyList xs). by rewrite get_embeddings_openai, Hxs. }
  destruct (update_data_cells "openai" wb df Hdf Hback')
    as (out & wb' & Hout & Hrec & Hrun & Hlen & _ & _ & Hcells).
  exists out, wb'. split; [done|]. split; [done|].
  pose proof Hdf as Hdf'.
  apply get_data_OK in Hdf' as (Hlen' & Hshape & Hload).
  assert (∀ i x, out !! i = Some x →
    ∃ e xs, df !! i = Some e
      ∧ combined x = combine (section e) (content e)
      ∧ section (base x) = cell (info wb) (i + 2) 1
      ∧ content (base x) = cell (info wb) (i + 2) 2
      ∧ num_tokens (base x)
        = Some (Z.of_nat (length (tokenizer_encode (combined x))))
      ∧ embeddings (base x) = Some (PyList xs)
      ∧ openai_Embedding_create "text-embedding-ada-002" (combined x) = OK xs
      ∧ cell (info wb') (i + 2) 4 = str_embeddings (Some (PyList xs)))
    as Hrows.
  { intros i x Hx. pose proof (lookup_lt_Some _ _ _ Hx) as Hi.
    destruct (lookup_lt_is_Some_2 df i) as [e He]; [lia|].
    destruct (Hload _ _ He) as (Hs & Hc & _).
    destruct (Hcells (i + 2)) as (x' & v & Hx' & Ht & Hs' & Hc' & Hn & Hv
                                  & Hget & _ & H4); [lia|].
    replace (i + 2 - 2) with i in Hx' by lia.
    assert (x' = x) as -> by congruence.
    assert (combined x = combine (section e) (content e)) as Ht'
      by (by rewrite Hs, Hc).
    rewrite <-Ht in Hget, Hn. rewrite get_embeddings_openai in Hget.
    apply bind_OK in Hget as (xs & Hxs & [= <-]).
    by exists e, xs. }
  split.
  - eapply get_data_after_record; [done|rewrite length_fmap; lia|..].
    + destruct out as [|x out]; [by left|right].
      simpl in Hlen. split; [lia|]. exists 2.
      destruct (Hrows 0 x eq_refl)
        as (_ & xs & _ & _ & _ & _ & _ & _ & _ & H4).
      simpl in H4. rewrite H4. discriminate.
    + apply Forall_fmap, Forall_lookup. intros i x Hx.
      destruct (Hrows i x Hx)
        as (e & xs & He & Ht & _ & _ & Hn & Hv & Hxs & _).
      pose proof (Forall_lookup_1 _ _ _ _ Hback He) as (xs' & Hxs' & Hne & Hok).
      pose proof (Forall_lookup_1 _ _ _ _ Hshort He) as Hsh.
      simpl in Hxs', Hsh. rewrite <-Ht in Hxs', Hsh.
      assert (xs' = xs) as -> by congruence.
      split; simpl; [eauto|right; eauto].
    + intros i e' (x & -> & Hx)%list_lookup_fmap_Some.
      by destruct (Hrows i x Hx) as (_ & _ & _ & _ & Hs & Hc & _).
  - intros i x Hx.
    destruct (Hrows i x Hx) as (e & xs & He & Ht & _ & _ & Hn & Hv & Hxs & _).
    by exists e, xs.
Qed.

(** X7.  With the remote backend the update can be loaded again: when
    every embedding that comes back is a list, not empty, of numbers that
    read back, and the token counts are within the limit of [int], then
    [get_data] after [update_data] returns the frame that
    [add_embeddings] computed, without its column [combined]. *)
Theorem update_data_then_get_data (wb : workbook) (df : list entry) :
  get_data wb = OK df →
  Forall (λ e, ∃ xs,
            openai_Embedding_create "text-embedding-ada-002"
              (combine (section e) (content e)) = OK xs
            ∧ xs ≠ [] ∧ Forall reads_back xs) df →
  Forall (λ e, short_int (Z.of_nat (length (tokenizer_encode
                                (combine (section e) (content e)))))) df →
  ∃ out wb',
    add_embeddings df "openai" = OK out
    ∧ update_data "openai" wb = OK wb'
    ∧ get_data wb' = OK (base <$> out).
Proof.
  intros Hdf Hback Hshort.
  destruct (update_data_openai_reload wb df Hdf Hback Hshort)
    as (out & wb' & Hout & Hrun & Hload & _).
  by exists out, wb'.
Qed.

(** X8.  With the local backend the update cannot be loaded again.  The
    embedding is a numpy array, and the cell holds the text numpy prints
    for it, which has no comma; so [parse_numbers] never reads the cell
    back as an embedding of two or more numbers. *)
Theorem huggingface_update_does_not_read_back
    (wb : workbook) (df : list entry) :
  (∀ xs, all_chars (λ c, negb (ascii_eqb c ",")) (ndarray_str xs) = true) →
  get_data wb = OK df →
  Forall (λ e, ∃ xs,
            SentenceTransformer_encode "paraphrase-MiniLM-L6-v2"
              (combine (section e) (content e)) = OK xs) df →
  ∃ wb',
    update_data "huggingface" wb = OK wb'
    ∧ ∀ r, 2 ≤ r ≤ nrows (info wb) →
        ∃ xs,
          SentenceTransformer_encode "paraphrase-MiniLM-L6-v2"
            (combine (cell (info wb) r 1) (cell (info wb) r 2)) = OK xs
          ∧ cell (info wb') r 4 = ndarray_str xs
          ∧ (∀ v, parse_numbers (cell (info wb') r 4) = OK v →
                  v = None ∨ ∃ y, v = Some (PyList [y]))
          ∧ (2 ≤ length xs →
             ∀ ys, length ys = length xs →
                   parse_numbers (cell (info wb') r 4) ≠ OK (Some (PyList ys))).
Proof.
  intros Hnp Hdf Hback.
  assert (Forall (λ e, ∃ v, get_embeddings (combine (section e) (content e))
                              "huggingface" = OK v) df) as Hback'.
  { eapply Forall_impl; [done|]. intros e (xs & Hxs).
    exists (NdArray xs). by rewrite get_embeddings_huggingface, Hxs. }
  destruct (update_data_cells "huggingface" wb df Hdf Hback')
    as (out & wb' & _ & _ & Hrun & _ & _ & _ & Hcells).
  exists wb'. split; [done|]. intros r Hr.
  destruct (Hcells r Hr) as (x & v & _ & _ & _ & _ & _ & _ & Hv & _ & H4).
  rewrite get_embeddings_huggingface in Hv.
  apply bind_OK in Hv as (xs & Hxs & [= <-]).
  exists xs. split; [done|]. split; [done|].
  assert (∀ v, parse_numbers (cell (info wb') r 4) = OK v →
               v = None ∨ ∃ y, v = Some (PyList [y])) as Hone.
  { intros v. rewrite H4. by apply parse_numbers_ndarray. }
  split; [done|]. intros Hlen ys Hys Hread.
  destruct (Hone _ Hread) as [|[y [= ->]]]; [done|]. simpl in Hys. lia.
Qed.

End StoreRoundTrip.

(** ** Saving twice *)

Section StoreAgain.
Context `{RT : Runtime}.

(** X9.  The last save wins.  Saving a frame and then a frame that is at
    least as long leaves every cell of the workbook as saving the second
    frame alone does; in particular saving the same frame twice changes
    nothing the second time. *)
Theorem record_embeddings_last_write_wins (df1 df2 : list entry) wb :
  length df1 ≤ length df2 →
  ∃ wb1 wb12 wb2,
    record_embeddings df1 wb = OK wb1
    ∧ record_embeddings df2 wb1 = OK wb12
    ∧ record_embeddings df2 wb = OK wb2
    ∧ qa wb12 = qa wb2
    ∧ (∀ r c, cell (info wb12) r c = cell (info wb2) r c)
    ∧ (df1 = df2 → ∀ r c, cell (info wb12) r c = cell (info wb1) r c).
Proof.
  intros Hlen.
  destruct (record_embeddings_cells df1 wb) as (wb1 & H1 & Hq1 & Hf1 & Hc1).
  destruct (record_embeddings_cells df2 wb1)
    as (wb12 & H12 & Hq12 & Hf12 & Hc12).
  destruct (record_embeddings_cells df2 wb) as (wb2 & H2 & Hq2 & Hf2 & Hc2).
  exists wb1, wb12, wb2. do 3 (split; [done|]).
  split; [congruence|]. split.
  - intros r c.
    destruct (decide ((c = 3 ∨ c = 4) ∧ 2 ≤ r < length df2 + 2))
      as [[Hc Hr]|Hout].
    + destruct (lookup_lt_is_Some_2 df2 (r - 2)) as [e He]; [lia|].
      destruct (Hc12 _ _ He) as [H3 H4]. destruct (Hc2 _ _ He) as [H3' H4'].
      replace (r - 2 + 2) with r in * by lia.
      destruct Hc as [-> | ->]; congruence.
    + rewrite Hf12, Hf1, Hf2 by lia. done.
  - intros -> r c.
    destruct (decide ((c = 3 ∨ c = 4) ∧ 2 ≤ r < length df2 + 2))
      as [[Hc Hr]|Hout].
    + destruct (lookup_lt_is_Some_2 df2 (r - 2)) as [e He]; [lia|].
      destruct (Hc12 _ _ He) as [H3 H4]. destruct (Hc1 _ _ He) as [H3' H4'].
      replace (r - 2 + 2) with r in * by lia.
      destruct Hc as [-> | ->]; congruence.
    + by rewrite Hf12 by lia.
Qed.

End StoreAgain.

(** ** What [parse_numbers] returns *)

Section Parsing.
Context `{RT : Runtime}.
Import ResultFacts PyFacts.

Lemma length_split sep s : length (split sep s) = S (count sep s).
Proof.
  induction s as [|c s IH]; [done|]. simpl.
  destruct (ascii_eqb c sep); simpl; [by rewrite IH|].
  destruct (split sep s); simpl in *; [done|lia].
Qed.

(** X10.  What [parse_numbers] returns is [''] for the empty cell and for
    no other; for any other cell it is a Python list with one number for
    each part between the commas of the text without its brackets, so
    with one number more than the text has commas: it is never the empty
    list. *)
Theorem parse_numbers_shape (s : string) v :
  parse_numbers s = OK v →
  (s = EmptyString ∧ v = None)
  ∨ (s ≠ EmptyString
     ∧ ∃ xs, v = Some (PyList xs)
         ∧ xs ≠ []
         ∧ length xs = S (count "," (strip_chars "[]" s))
         ∧ Forall2 (λ part x, py_float part = OK x)
             (split "," (strip_chars "[]" s)) xs).
Proof.
  unfold parse_numbers. destruct s as [|c s]; [intros [= <-]; by left|].
  simpl is_empty. simpl negb. cbv iota.
  intros (xs & Hxs%traverse_OK & [= <-])%bind_OK. right. split; [done|].
  exists xs. split; [done|].
  pose proof (Forall2_length _ _ _ Hxs) as Hlen.
  rewrite length_split in Hlen.
  split; [by destruct xs|]. by split.
Qed.

End Parsing.

(** ** An unsupported backend selector, through the callers *)

Section Unsupported.
Context `{RT : Runtime}.
Import ResultFacts.

(** X11.  With a backend selector other than ['openai'] and
    ['huggingface'], every function that asks for an embedding raises
    [UnboundLocalError]: [add_embeddings] and [update_data] on a knowledge
    base with at least one row, the ranking, [construct_prompt] and
    [ama_chatbot] on every frame, the empty one included, since they embed
    the query first.  On a knowledge base without rows [add_embeddings]
    returns the empty frame and [update_data] leaves the workbook as it
    is. *)
Theorem unsupported_method_in_callers method :
  method ≠ "openai" → method ≠ "huggingface" →
  add_embeddings [] method = OK []
  ∧ (∀ df, df ≠ [] → add_embeddings df method = Raise UnboundLocalError)
  ∧ (∀ query df,
       order_entries_by_similarity query df method = Raise UnboundLocalError)
  ∧ (∀ query df, construct_prompt query df method = Raise UnboundLocalError)
  ∧ (∀ query df wb,
       (ama_chatbot query df method wb).1 = Raise UnboundLocalError)
  ∧ (∀ wb df, get_data wb = OK df → df ≠ [] →
       update_data method wb = Raise UnboundLocalError)
  ∧ (∀ wb, get_data wb = OK [] → update_data method wb = OK wb).
Proof.
  intros H1 H2.
  assert (∀ df, df ≠ [] → add_embeddings df method = Raise UnboundLocalError)
    as Hadd.
  { intros [|e df] Hne; [done|]. unfold add_embeddings.
    rewrite fmap_cons, traverse_cons. simpl combined.
    by rewrite get_embeddings_unbound. }
  assert (∀ query df,
    order_entries_by_similarity query df method = Raise UnboundLocalError)
    as Hrank.
  { intros. unfold order_entries_by_similarity.
    by rewrite get_embeddings_unbound. }
  assert (∀ query df,
    construct_prompt query df method = Raise UnboundLocalError) as Hprompt.
  { intros. unfold construct_prompt. by rewrite Hrank. }
  do 4 (split; [done|]). split.
  { intros. unfold ama_chatbot. cbn [fst]. by rewrite Hprompt. }
  split.
  - intros wb df Hdf Hne. unfold update_data. rewrite Hdf. cbn.
    by rewrite Hadd.
  - intros wb Hdf. unfold update_data. rewrite Hdf. by destruct wb.
Qed.

End Unsupported.

(** ** When the ranking returns *)

Section RankingReturns.
Context `{RT : Runtime}.
Import ResultFacts.

(** X12.  The ranking returns exactly when the query has an embedding
    and every entry has an embedding of the dimension of the query
    embedding.  An embedding of another dimension makes [np.dot] raise
    [ValueError], when the rows before it are in order: so a knowledge
    base embedded with one backend cannot be ranked with a backend of
    another dimension. *)
Theorem ranking_returns_iff query (df : list entry) method :
  ((∃ out, order_entries_by_similarity query df method = OK out) ↔
   ∃ qe, get_embeddings query method = OK qe
         ∧ Forall (λ e, ∃ v, embeddings e = Some v
                             ∧ length (np_array v) = length (np_array qe)) df)
  ∧ (∀ qe good e v rest,
       get_embeddings query method = OK qe →
       df = good ++ e :: rest →
       Forall (λ g, ∃ w, embeddings g = Some w
                         ∧ length (np_array w) = length (np_array qe)) good →
       embeddings e = Some v →
       length (np_array v) ≠ length (np_array qe) →
       order_entries_by_similarity query df method = Raise ValueError).
Proof.
  split; [split|].
  - intros [out (qe & sims & Hqe & Hsims & _)%order_entries_by_similarity_OK].
    exists qe. split; [done|]. apply Forall_lookup. intros i e He.
    destruct (Forall2_lookup_l _ _ _ _ _ Hsims He) as (s & _ & Hs).
    apply vector_similarity_OK in Hs as (v & ? & ? & _). eauto.
  - intros (qe & Hqe & Hdf).
    by apply (order_entries_by_similarity_returns _ _ _ qe).
  - intros qe good e v rest Hqe -> Hgood He Hlen.
    unfold order_entries_by_similarity. rewrite Hqe. cbn.
    assert (traverse (λ e, vector_similarity (embeddings e) qe)
              (good ++ e :: rest) = Raise ValueError) as ->; [|done].
    destruct (traverse_returns
                (λ e, vector_similarity (embeddings e) qe) good) as [ys Hys].
    { eapply Forall_impl; [done|]. intros g (w & Hw & Hl).
      eexists. apply vector_similarity_OK. eauto. }
    apply traverse_Raise. exists good, e, rest, ys.
    split; [done|]. split; [done|].
    unfold vector_similarity. rewrite He. by rewrite decide_False.
Qed.

End RankingReturns.

(** ** More on packing the prompt *)

Section PromptMore.
Context `{RT : Runtime}.
Import ResultFacts PyFacts.

Lemma total_cost_take_le sep (df : list ranked_entry) j :
  Forall (λ r, (0 ≤ section_cost sep r)%Z) df →
  (total_cost sep (take j df) ≤ total_cost sep df)%Z.
Proof.
  intros H. revert j. induction H as [|r df Hr _ IH]; intros [|j]; [done..| |].
  - specialize (IH 0). simpl in *. lia.
  - specialize (IH j). rewrite firstn_cons, !total_cost_cons. lia.
Qed.

(** The loop runs through a run of rows that fit, and carries on with the
    rows behind it. *)
Lemma pack_sections_reach MAX sep (good rest : list ranked_entry) :
  ∀ chosen total,
  Forall has_num_tokens good →
  (∀ j, 1 ≤ j ≤ length good →
        (total + total_cost sep (take j good) ≤ MAX)%Z) →
  pack_sections MAX sep (good ++ rest) chosen total =
  pack_sections MAX sep rest (chosen ++ (section_text <$> good))
    (total + total_cost sep good).
Proof.
  induction good as [|r good IH]; intros chosen total Hgood Hfit.
  - simpl. by rewrite app_nil_r, Z.add_0_r.
  - inversion Hgood as [|?? [n Hn] Hgood']; subst.
    assert (section_cost sep r = (n + sep)%Z) as Hcost.
    { unfold section_cost. by rewrite Hn. }
    pose proof (Hfit 1 ltac:(simpl; lia)) as H1.
    simpl take in H1. rewrite total_cost_cons, Hcost in H1.
    simpl total_cost in H1.
    simpl app. simpl pack_sections. rewrite Hn.
    destruct (Z.gtb_spec (total + (n + sep)) MAX) as [Hgt|Hle]; [lia|].
    fold (section_text r). rewrite IH; [|done|].
    + rewrite Hcost. f_equal; [by rewrite <-app_assoc|lia].
    + intros j Hj. specialize (Hfit (S j) ltac:(simpl; lia)).
      rewrite firstn_cons, total_cost_cons, Hcost in Hfit. lia.
Qed.

(** Once the loop has left at the [break], the rows behind it play no
    part. *)
Lemma pack_sections_break MAX sep (good rest : list ranked_entry) :
  ∀ chosen total,
  Forall has_num_tokens good →
  (∃ j, 1 ≤ j ≤ length good
        ∧ (MAX < total + total_cost sep (take j good))%Z) →
  pack_sections MAX sep (good ++ rest) chosen total =
  pack_sections MAX sep good chosen total.
Proof.
  induction good as [|r good IH]; intros chosen total Hgood (j & Hj & Hbig).
  - simpl in Hj. lia.
  - inversion Hgood as [|?? [n Hn] Hgood']; subst.
    assert (section_cost sep r = (n + sep)%Z) as Hcost.
    { unfold section_cost. by rewrite Hn. }
    simpl app. simpl pack_sections. rewrite Hn.
    destruct (Z.gtb_spec (total + (n + sep)) MAX) as [Hgt|Hle]; [done|].
    apply IH; [done|]. destruct j as [|j]; [lia|].
    rewrite firstn_cons, total_cost_cons, Hcost in Hbig.
    destruct j as [|j]; [simpl in Hbig; lia|].
    exists (S j). split; [simpl in Hj; lia|lia].
Qed.

Lemma construct_prompt_packed query (df : list entry) method ranking packed :
  order_entries_by_similarity query df method = OK ranking →
  pack_sections get_max_num_tokens SEPARATOR_len ranking [] 0 = OK packed →
  construct_prompt query df method =
  OK (header +:+ Py.concat packed.1
      +:+ nl +:+ nl +:+ " Q: " +:+ query +:+ nl +:+ " A:").
Proof.
  intros Hrank Hp. unfold construct_prompt.
  apply bind_OK. exists ranking. split; [done|].
  apply bind_OK. by exists packed.
Qed.

(** X13.  When every ranked row has a token count that is not negative
    and the rows together, each with its separator, stay within the limit
    of 2046 tokens, the loop never breaks: every row of the knowledge base
    is in the prompt, in the order of the ranking. *)
Theorem construct_prompt_packs_all query (df : list entry) method ranking :
  order_entries_by_similarity query df method = OK ranking →
  Forall (λ r, ∃ n, num_tokens (ranked r) = Some n ∧ (0 ≤ n)%Z) ranking →
  (total_cost SEPARATOR_len ranking ≤ get_max_num_tokens)%Z →
  pack_sections get_max_num_tokens SEPARATOR_len ranking [] 0
  = OK (section_text <$> ranking, total_cost SEPARATOR_len ranking)
  ∧ construct_prompt query df method =
    OK (header +:+ Py.concat (section_text <$> ranking)
        +:+ nl +:+ nl +:+ " Q: " +:+ query +:+ nl +:+ " A:").
Proof.
  intros Hrank Htok Hfit.
  assert (Forall has_num_tokens ranking) as Hhas.
  { eapply Forall_impl; [exact Htok|]. intros r (n & Hn & _). by exists n. }
  assert (Forall (λ r, (0 ≤ section_cost SEPARATOR_len r)%Z) ranking) as Hpos.
  { eapply Forall_impl; [exact Htok|]. intros r (n & Hn & Hpos).
    unfold section_cost, SEPARATOR_len. rewrite Hn. simpl. lia. }
  assert (pack_sections get_max_num_tokens SEPARATOR_len ranking [] 0
          = OK (section_text <$> ranking, total_cost SEPARATOR_len ranking))
    as Hpack.
  { rewrite <-(app_nil_r ranking) at 1. rewrite pack_sections_reach; [done..|].
    intros j _. pose proof (total_cost_take_le SEPARATOR_len ranking j Hpos).
    lia. }
  split; [done|].
  by rewrite (construct_prompt_packed _ _ _ _ _ Hrank Hpack).
Qed.

(** X14.  A ranked row whose token count is [''] makes [construct_prompt]
    raise [TypeError] exactly when the loop reaches it.  When the rows
    ranked before it all fit, the addition raises; when one of them
    exceeds the limit, the loop has left before and the prompt is the one
    of the rows before the break. *)
Theorem construct_prompt_missing_num_tokens
    query (df : list entry) method good r rest :
  order_entries_by_similarity query df method = OK (good ++ r :: rest) →
  Forall has_num_tokens good →
  num_tokens (ranked r) = None →
  ((∀ j, j ≤ length good →
      (total_cost SEPARATOR_len (take j good) ≤ get_max_num_tokens)%Z) →
   construct_prompt query df method = Raise TypeError)
  ∧ ((∃ j, j ≤ length good
        ∧ (get_max_num_tokens < total_cost SEPARATOR_len (take j good))%Z) →
     ∃ k, k < length good
       ∧ construct_prompt query df method =
         OK (header +:+ Py.concat (section_text <$> take k good)
             +:+ nl +:+ nl +:+ " Q: " +:+ query +:+ nl +:+ " A:")).
Proof.
  intros Hrank Hgood Hr. split.
  - intros Hfit. unfold construct_prompt.
    apply bind_Raise. right. exists (good ++ r :: rest). split; [done|].
    apply bind_Raise. left.
    rewrite pack_sections_reach; [|done|].
    + by apply pack_sections_TypeError.
    + intros j Hj. specialize (Hfit j ltac:(lia)). lia.
  - intros (j & Hj & Hbig).
    assert (1 ≤ j) as Hj1.
    { destruct j; [|lia]. simpl in Hbig. unfold get_max_num_tokens in Hbig.
      lia. }
    destruct (pack_sections_spec get_max_num_tokens SEPARATOR_len good
                [] 0 Hgood) as (k & Hk & Hpack & Hfit & _).
    exists k. split.
    { destruct (decide (k = length good)) as [->|]; [|lia].
      specialize (Hfit j ltac:(lia)). lia. }
    rewrite <-(pack_sections_break _ _ good (r :: rest)) in Hpack; [|done|].
    + by rewrite (construct_prompt_packed _ _ _ _ _ Hrank Hpack).
    + exists j. split; [lia|]. lia.
Qed.



End PromptMore.

(** ** The answer *)

Section AnswerMore.
Context `{RT : Runtime}.
Import ResultFacts PyFacts.

(** X16.  When the prompt is built and the completion comes back,
    [ama_chatbot] returns the prompt with the answer, and the answer is
    the text of the completion without the blanks and newlines at its two
    ends: the text is a run of blanks and newlines, the answer, and
    another such run, and the answer neither starts nor ends with a blank
    or a newline.  The request asks the model ['text-davinci-003'] for at
    most 300 tokens at temperature 0.9. *)
Theorem ama_chatbot_answer_stripped
    query (df : list entry) method wb prompt text :
  construct_prompt query df method = OK prompt →
  openai_Completion_create
    (CompletionRequest prompt (9 # 10) 300 1 0 0 "text-davinci-003")
  = OK text →
  ∃ answer a b,
    ama_chatbot query df method wb = (OK (answer, prompt), wb)
    ∧ text = a +:+ answer +:+ b
    ∧ all_chars (λ c, mem c (String " " nl)) a = true
    ∧ all_chars (λ c, mem c (String " " nl)) b = true
    ∧ edge_free (λ c, mem c (String " " nl)) answer.
Proof.
  intros Hp Ht.
  destruct (strip_with_decompose (λ c, mem c (String " " nl)) text)
    as (a & b & Htext & Ha & Hb & Hedge).
  exists (strip_chars (String " " nl) text), a, b.
  split; [|done].
  unfold ama_chatbot. f_equal. apply bind_OK. exists prompt.
  split; [done|]. apply bind_OK. by exists text.
Qed.

End AnswerMore.

(** ** More on the log *)

Section LogMore.
Import ResultFacts SheetFacts.

Lemma length_tail_get_all_values (s : worksheet) :
  length (tail (get_all_values s)) = nrows s - 1.
Proof.
  pose proof (length_get_all_values s).
  destruct (get_all_values s); simpl in *; lia.
Qed.

(** The run of [record_question_answer] on any workbook. *)
Lemma record_question_answer_run query answer today (wb : workbook) :
  let row := nrows (qa wb) `max` 1 + 1 in
  (nrows (qa wb) ≤ 1 ∨ ncols (qa wb) = 3) ∧
    record_question_answer query answer today wb =
    OK (Workbook (info wb)
          (update_cell row 3 answer
             (update_cell row 2 query
                (update_cell row 1 (strftime_Ymd today) (qa wb)))))
  ∨ (2 ≤ nrows (qa wb) ∧ ncols (qa wb) ≠ 3) ∧
    record_question_answer query answer today wb = Raise ValueError.
Proof.
  intros row.
  destruct (decide (nrows (qa wb) ≤ 1 ∨ ncols (qa wb) = 3)) as [Hok|Hbad].
  - left. split; [done|].
    assert (length (tail (get_all_values (qa wb))) + 2 = row) as Hrow.
    { rewrite length_tail_get_all_values. unfold row. lia. }
    unfold record_question_answer. apply bind_OK. exists (qa wb).
    split; [done|]. apply bind_OK.
    exists (tail (get_all_values (qa wb))). split; [|by rewrite Hrow].
    apply DataFrame_OK.
    destruct (decide (nrows (qa wb) ≤ 1)) as [Hr|Hr].
    + pose proof (length_tail_get_all_values (qa wb)) as Hl.
      destruct (tail (get_all_values (qa wb))); [done|simpl in Hl; lia].
    + destruct Hok as [|Hc]; [done|]. apply Forall_tail.
      rewrite <-Hc. apply get_all_values_widths.
  - right. split; [lia|].
    apply record_question_answer_ValueError; lia.
Qed.

(** X17.  [record_question_answer] completes exactly when the log has no
    data row or has exactly three columns; otherwise the frame
    constructor raises [ValueError] and nothing else is ever raised.  When
    it completes it has written the date, the query and the answer into
    the row below the last row in use, or into row 2 on a blank sheet;
    that row held no text, so no earlier record is overwritten; and no
    other cell of the workbook has changed. *)
Theorem record_question_answer_never_overwrites
    query answer today (wb : workbook) :
  ((∃ wb', record_question_answer query answer today wb = OK wb') ↔
   nrows (qa wb) ≤ 1 ∨ ncols (qa wb) = 3)
  ∧ (∀ e, record_question_answer query answer today wb = Raise e →
          e = ValueError)
  ∧ ∀ wb', record_question_answer query answer today wb = OK wb' →
      let row := nrows (qa wb) `max` 1 + 1 in
      info wb' = info wb
      ∧ (∀ c, cell (qa wb) row c = EmptyString)
      ∧ cell (qa wb') row 1 = strftime_Ymd today
      ∧ cell (qa wb') row 2 = query
      ∧ cell (qa wb') row 3 = answer
      ∧ ∀ r c, r ≠ row ∨ 4 ≤ c ∨ c = 0 →
               cell (qa wb') r c = cell (qa wb) r c.
Proof.
  destruct (record_question_answer_run query answer today wb)
    as [[Hok Hrun]|[Hbad Hrun]]; rewrite Hrun.
  - split; [split; [done|eauto]|]. split; [done|].
    intros wb' [= <-] row. simpl. fold row.
    split; [done|]. split; [intros c; apply beyond_nrows; unfold row; lia|].
    split; [|split; [|split]].
    + rewrite !cell_update_cell_ne by (intros [= ? ?]; lia).
      apply cell_update_cell_eq.
    + rewrite cell_update_cell_ne by (intros [= ? ?]; lia).
      apply cell_update_cell_eq.
    + apply cell_update_cell_eq.
    + intros r c Hrc.
      rewrite !cell_update_cell_ne; [done|intros [= ? ?]; lia..].
  - split; [split; [by intros [? ?]|lia]|]. split; [by intros e [= <-]|done].
Qed.

(** X18.  Records add up.  On a log with its header row and its three
    columns, a second call writes below the record of the first: after
    the two calls the log shows its earlier rows and then the two
    records, in the order of the calls, and still has the shape that the
    next call needs. *)
Theorem record_question_answer_twice
    query1 answer1 today1 query2 answer2 today2 (wb : workbook) :
  1 ≤ nrows (qa wb) → ncols (qa wb) = 3 →
  ∃ wb1 wb2,
    record_question_answer query1 answer1 today1 wb = OK wb1
    ∧ record_question_answer query2 answer2 today2 wb1 = OK wb2
    ∧ info wb2 = info wb
    ∧ nrows (qa wb2) = nrows (qa wb) + 2
    ∧ ncols (qa wb2) = 3
    ∧ get_all_values (qa wb2) =
      get_all_values (qa wb)
      ++ [[strftime_Ymd today1; query1; answer1];
          [strftime_Ymd today2; query2; answer2]].
Proof.
  intros Hrows Hcols.
  assert (∀ q a t (w : workbook), 1 ≤ nrows (qa w) → ncols (qa w) = 3 →
    ∃ w', record_question_answer q a t w = OK w'
      ∧ info w' = info w
      ∧ nrows (qa w') = nrows (qa w) + 1 ∧ ncols (qa w') = 3
      ∧ get_all_values (qa w') =
        get_all_values (qa w) ++ [[strftime_Ymd t; q; a]]) as Hstep.
  { intros q a t w Hr Hc.
    destruct (record_question_answer_cells q a t w Hr Hc)
      as (w' & Hrun & Hinfo & _ & _ & _ & _ & _ & _ & Hall).
    exists w'. split; [done|]. split; [done|].
    pose proof (length_get_all_values (qa w')) as Hl.
    pose proof (get_all_values_widths (qa w')) as Hw.
    rewrite Hall in Hl, Hw.
    rewrite length_app, length_get_all_values in Hl. simpl in Hl.
    apply Forall_app in Hw as [_ Hw]. inversion Hw as [|?? Hw' _]; subst.
    simpl in Hw'. split; [lia|]. by split. }
  destruct (Hstep query1 answer1 today1 wb Hrows Hcols)
    as (wb1 & Hrun1 & Hinfo1 & Hr1 & Hc1 & Hall1).
  destruct (Hstep query2 answer2 today2 wb1 ltac:(lia) Hc1)
    as (wb2 & Hrun2 & Hinfo2 & Hr2 & Hc2 & Hall2).
  exists wb1, wb2. do 2 (split; [done|]).
  split; [congruence|]. split; [lia|]. split; [done|].
  by rewrite Hall2, Hall1, <-app_assoc.
Qed.

End LogMore.

(** ** From the update to the prompt *)

Section Pipeline.
Context `{RT : Runtime}.
Import ResultFacts.


End Pipeline.

(** ** The further theorems at concrete inputs *)

Lemma str_int_no_comma z :
  all_chars (λ c, negb (ascii_eqb c ",")) (str_int z) = true.
Proof.
  assert (∀ d, all_chars (λ c, negb (ascii_eqb c ","))
                 (NilZero.string_of_uint d) = true) as Hd.
  { intros d.
    assert (NilZero.string_of_uint d = "0"
            ∨ NilZero.string_of_uint d = NilEmpty.string_of_uint d) as [->| ->]
      by (destruct d; auto); [done|].
    eapply PyFacts.all_chars_impl; [|apply IntFacts.string_of_uint_digits].
    by intros [[] [] [] [] [] [] [] []]. }
  unfold str_int. destruct (Z.to_int z) as [d|d]; simpl; by rewrite Hd.
Qed.

Lemma ndarray_str_no_comma xs :
  all_chars (λ c, negb (ascii_eqb c ","))
    (ndarray_str (Runtime := Mock.runtime) xs) = true.
Proof.
  change (ndarray_str xs) with ("[" +:+ join " " (str_int <$> xs) +:+ "]").
  rewrite !PyFacts.all_chars_app.
  rewrite PyFacts.all_chars_join; [done..|].
  apply Forall_fmap, Forall_forall. intros z _. apply str_int_no_comma.
Qed.

Lemma pages_embedded method :
  method = "openai" ∨ method = "huggingface" →
  Forall (λ e, ∃ v, get_embeddings (RT := Mock.runtime)
                      (combine (section e) (content e)) method = OK v)
    Mock.pages.
Proof.
  intros [-> | ->]; repeat constructor; eexists; reflexivity.
Qed.

Lemma get_data_without_rows_witness :
  nrows (info Mock.book) ≤ 1
  ∧ get_data (RT := Mock.runtime) Mock.book = OK [].
Proof.
  assert (nrows (info Mock.book) ≤ 1) as H by (vm_compute; lia).
  split; [exact H|].
  exact (get_data_without_rows (RT := Mock.runtime) Mock.book H).
Defined.

Lemma num_tokens_round_trip_witness :
  short_int 38
  ∧ parse_num_tokens (str_num_tokens (Some 38%Z)) = OK (Some 38%Z).
Proof.
  assert (short_int 38) as H by (unfold short_int; vm_compute; lia).
  split; [exact H|].
  exact (proj1 (num_tokens_round_trip (RT := Mock.runtime) 38 H)).
Defined.

Lemma record_embeddings_then_get_data_witness :
  ncols (info Mock.shelf) = 4
  ∧ cell (info Mock.shelf) 1 4 ≠ EmptyString
  ∧ nrows (info Mock.shelf) ≤ length [Mock.hobbies; Mock.job] + 1
  ∧ Forall storable [Mock.hobbies; Mock.job]
  ∧ ∃ wb',
      record_embeddings [Mock.hobbies; Mock.job] Mock.shelf = OK wb'
      ∧ get_data wb' = OK [Mock.hobbies; Mock.job].
Proof.
  assert (ncols (info Mock.shelf) = 4) as H1 by reflexivity.
  assert (cell (info Mock.shelf) 1 4 ≠ EmptyString) as H2 by done.
  assert (nrows (info Mock.shelf) ≤ length [Mock.hobbies; Mock.job] + 1)
    as H3 by (vm_compute; lia).
  assert (Forall storable [Mock.hobbies; Mock.job]) as H4.
  { assert (∀ (e : @entry Mock.runtime) n xs,
              num_tokens e = Some n → short_int n →
              embeddings e = Some (PyList xs) → xs ≠ [] →
              Forall reads_back xs → storable e) as Hst.
    { intros e n xs ?????. split; [by exists n|right; by exists xs]. }
    constructor; [|constructor; [|constructor]].
    - apply (Hst _ 6%Z [1; 0]%Z);
        [reflexivity|unfold short_int; vm_compute; lia|reflexivity|done|].
      repeat constructor.
    - apply (Hst _ 8%Z [2; 1]%Z);
        [reflexivity|unfold short_int; vm_compute; lia|reflexivity|done|].
      repeat constructor. }
  assert (∀ i e, [Mock.hobbies; Mock.job] !! i = Some e →
            section e = cell (info Mock.shelf) (i + 2) 1
            ∧ content e = cell (info Mock.shelf) (i + 2) 2) as H5.
  { intros [|[|i]] e [= <-]; split; reflexivity. }
  do 4 (split; [assumption|]).
  exact (record_embeddings_then_get_data (RT := Mock.runtime)
           [Mock.hobbies; Mock.job] Mock.shelf H1 H2 H3 H4 H5).
Defined.

Lemma update_data_writes_witness :
  get_data (RT := Mock.runtime) Mock.shelf = OK Mock.pages
  ∧ Forall (λ e, ∃ v, get_embeddings (RT := Mock.runtime)
                        (combine (section e) (content e)) "openai" = OK v)
      Mock.pages
  ∧ ∃ wb',
      update_data (RT := Mock.runtime) "openai" Mock.shelf = OK wb'
      ∧ qa wb' = qa Mock.shelf
      ∧ cell (info wb') 2 3 = "38".
Proof.
  assert (get_data (RT := Mock.runtime) Mock.shelf = OK Mock.pages) as H1
    by reflexivity.
  pose proof (pages_embedded "openai" (or_introl eq_refl)) as H2.
  split; [exact H1|]. split; [exact H2|].
  destruct (update_data_writes (RT := Mock.runtime)
              "openai" Mock.shelf Mock.pages H1 H2)
    as (wb' & Hrun & Hqa & _ & Hcells).
  exists wb'. split; [exact Hrun|]. split; [exact Hqa|].
  destruct (Hcells 2) as [H3 _]; [vm_compute; lia|]. exact H3.
Defined.

Lemma pages_read_back :
  Forall (λ e, ∃ xs,
            openai_Embedding_create (Runtime := Mock.runtime)
              "text-embedding-ada-002" (combine (section e) (content e))
            = OK xs
            ∧ xs ≠ [] ∧ Forall reads_back xs ∧ length xs = 2)
    Mock.pages.
Proof.
  repeat constructor; eexists; (split; [reflexivity|]);
    (split; [done|]); (split; [repeat constructor|reflexivity]).
Qed.

Lemma pages_short :
  Forall (λ e, short_int (Z.of_nat (length
            (tokenizer_encode (Runtime := Mock.runtime)
               (combine (section e) (content e))))))
    Mock.pages.
Proof. repeat constructor; unfold short_int; vm_compute; lia. Qed.

Lemma update_data_then_get_data_witness :
  get_data (RT := Mock.runtime) Mock.shelf = OK Mock.pages
  ∧ ∃ out wb',
      add_embeddings (RT := Mock.runtime) Mock.pages "openai" = OK out
      ∧ update_data (RT := Mock.runtime) "openai" Mock.shelf = OK wb'
      ∧ get_data wb' = OK (base <$> out).
Proof.
  assert (get_data (RT := Mock.runtime) Mock.shelf = OK Mock.pages) as H1
    by reflexivity.
  split; [exact H1|].
  apply (update_data_then_get_data (RT := Mock.runtime)
           Mock.shelf Mock.pages H1).
  - eapply Forall_impl; [exact pages_read_back|].
    intros e (xs & ? & ? & ? & _). eauto.
  - exact pages_short.
Defined.

Lemma huggingface_update_does_not_read_back_witness :
  get_data (RT := Mock.runtime) Mock.shelf = OK Mock.pages
  ∧ ∃ wb',
      update_data (RT := Mock.runtime) "huggingface" Mock.shelf = OK wb'
      ∧ cell (info wb') 2 4 = "[38 5]"
      ∧ ∀ ys, length ys = 2 →
              parse_numbers (cell (info wb') 2 4) ≠ OK (Some (PyList ys)).
Proof.
  assert (get_data (RT := Mock.runtime) Mock.shelf = OK Mock.pages) as H1
    by reflexivity.
  split; [exact H1|].
  destruct (huggingface_update_does_not_read_back (RT := Mock.runtime)
              Mock.shelf Mock.pages ndarray_str_no_comma H1)
    as (wb' & Hrun & Hcells).
  { repeat constructor; eexists; reflexivity. }
  exists wb'. split; [exact Hrun|].
  destruct (Hcells 2) as (xs & Hxs & H4 & _ & Hno); [vm_compute; lia|].
  injection Hxs as <-. split; [exact H4|].
  intros ys Hys. apply Hno; [simpl; lia|exact Hys].
Defined.

Lemma record_embeddings_last_write_wins_witness :
  length [Mock.hobbies] ≤ length [Mock.hobbies; Mock.job]
  ∧ ∃ wb1 wb12 wb2,
      record_embeddings [Mock.hobbies] Mock.shelf = OK wb1
      ∧ record_embeddings [Mock.hobbies; Mock.job] wb1 = OK wb12
      ∧ record_embeddings [Mock.hobbies; Mock.job] Mock.shelf = OK wb2
      ∧ ∀ r c, cell (info wb12) r c = cell (info wb2) r c.
Proof.
  assert (length [Mock.hobbies] ≤ length [Mock.hobbies; Mock.job]) as H
    by (simpl; lia).
  split; [exact H|].
  destruct (record_embeddings_last_write_wins (RT := Mock.runtime)
              [Mock.hobbies] [Mock.hobbies; Mock.job] Mock.shelf H)
    as (wb1 & wb12 & wb2 & H1 & H12 & H2 & _ & Hcells & _).
  exists wb1, wb12, wb2. by repeat split.
Defined.

Lemma parse_numbers_shape_witness :
  parse_numbers (RT := Mock.runtime) "[1, 2]"
  = OK (Some (PyList [1; 2]%Z))
  ∧ ∃ xs, Some (PyList (RT := Mock.runtime) [1; 2]%Z) = Some (PyList xs)
          ∧ length xs = S (count "," (strip_chars "[]" "[1, 2]")).
Proof.
  assert (parse_numbers (RT := Mock.runtime) "[1, 2]"
          = OK (Some (PyList [1; 2]%Z))) as H by reflexivity.
  split; [exact H|].
  destruct (parse_numbers_shape (RT := Mock.runtime) "[1, 2]" _ H)
    as [[Hs _]|(_ & xs & Hv & _ & Hlen & _)]; [discriminate Hs|].
  exists xs. split; [exact Hv|exact Hlen].
Defined.

Lemma unsupported_method_in_callers_witness :
  "cohere" ≠ "openai" ∧ "cohere" ≠ "huggingface"
  ∧ add_embeddings (RT := Mock.runtime) [Mock.hobbies] "cohere"
    = Raise UnboundLocalError
  ∧ construct_prompt (RT := Mock.runtime) "hi" [] "cohere"
    = Raise UnboundLocalError.
Proof.
  assert ("cohere" ≠ "openai") as H1 by discriminate.
  assert ("cohere" ≠ "huggingface") as H2 by discriminate.
  split; [exact H1|]. split; [exact H2|].
  destruct (unsupported_method_in_callers (RT := Mock.runtime) "cohere" H1 H2)
    as (_ & Hadd & _ & Hprompt & _).
  split; [apply Hadd; discriminate|apply Hprompt].
Defined.

Lemma construct_prompt_packs_all_witness :
  order_entries_by_similarity (RT := Mock.runtime)
    "What do you do?" [Mock.hobbies; Mock.job] "openai" = OK Mock.ranking
  ∧ (total_cost SEPARATOR_len Mock.ranking ≤ get_max_num_tokens)%Z
  ∧ construct_prompt (RT := Mock.runtime)
      "What do you do?" [Mock.hobbies; Mock.job] "openai"
    = OK (header +:+ Py.concat (section_text <$> Mock.ranking)
          +:+ nl +:+ nl +:+ " Q: " +:+ "What do you do?" +:+ nl +:+ " A:").
Proof.
  assert (total_cost SEPARATOR_len Mock.ranking ≤ get_max_num_tokens)%Z
    as H by (by vm_compute).
  split; [reflexivity|]. split; [exact H|].
  apply (construct_prompt_packs_all (RT := Mock.runtime)
           "What do you do?" [Mock.hobbies; Mock.job] "openai"
           Mock.ranking eq_refl); [|exact H].
  repeat constructor; eexists; (split; [reflexivity|lia]).
Defined.

Lemma construct_prompt_missing_num_tokens_witness :
  order_entries_by_similarity (RT := Mock.runtime)
    "hi" [Mock.hobbies; Mock.uncounted] "openai"
  = OK ([Ranked Mock.hobbies 2%Z] ++ Ranked Mock.uncounted 0%Z :: [])
  ∧ Forall has_num_tokens [Ranked Mock.hobbies 2%Z]
  ∧ num_tokens (ranked (Ranked Mock.uncounted 0%Z)) = None
  ∧ construct_prompt (RT := Mock.runtime)
      "hi" [Mock.hobbies; Mock.uncounted] "openai" = Raise TypeError.
Proof.
  assert (Forall has_num_tokens [Ranked Mock.hobbies 2%Z]) as H
    by (repeat constructor; by eexists).
  split; [reflexivity|]. split; [exact H|]. split; [reflexivity|].
  apply (construct_prompt_missing_num_tokens (RT := Mock.runtime)
           "hi" [Mock.hobbies; Mock.uncounted] "openai"
           [Ranked Mock.hobbies 2%Z] (Ranked Mock.uncounted 0%Z) []
           eq_refl H eq_refl).
  intros [|[|j]] _; by vm_compute.
Defined.

Lemma ama_chatbot_answer_stripped_witness :
  construct_prompt (RT := Mock.runtime) "hi" [Mock.hobbies; Mock.job] "openai"
  = OK (header +:+ SEPARATOR +:+ "I am an engineer."
        +:+ SEPARATOR +:+ "I like chess."
        +:+ nl +:+ nl +:+ " Q: hi" +:+ nl +:+ " A:")
  ∧ ∃ answer prompt a b,
      ama_chatbot (RT := Mock.runtime)
        "hi" [Mock.hobbies; Mock.job] "openai" Mock.book
      = (OK (answer, prompt), Mock.book)
      ∧ " hello" +:+ nl = a +:+ answer +:+ b
      ∧ edge_free (λ c, mem c (String " " nl)) answer.
Proof.
  split; [reflexivity|].
  destruct (ama_chatbot_answer_stripped (RT := Mock.runtime)
              "hi" [Mock.hobbies; Mock.job] "openai" Mock.book
              (header +:+ SEPARATOR +:+ "I am an engineer."
               +:+ SEPARATOR +:+ "I like chess."
               +:+ nl +:+ nl +:+ " Q: hi" +:+ nl +:+ " A:")
              (" hello" +:+ nl) eq_refl eq_refl)
    as (answer & a & b & Hrun & Htext & _ & _ & Hedge).
  eexists answer, _, a, b.
  split; [exact Hrun|]. split; [exact Htext|exact Hedge].
Defined.

Lemma record_question_answer_twice_witness :
  1 ≤ nrows (qa Mock.book) ∧ ncols (qa Mock.book) = 3
  ∧ ∃ wb1 wb2,
      record_question_answer "hi" "hello" (Date 2023 2 14) Mock.book = OK wb1
      ∧ record_question_answer "bye" "goodbye" (Date 2023 2 15) wb1 = OK wb2
      ∧ get_all_values (qa wb2) =
        get_all_values (qa Mock.book)
        ++ [["2023-02-14"; "hi"; "hello"]; ["2023-02-15"; "bye"; "goodbye"]].
Proof.
  assert (1 ≤ nrows (qa Mock.book)) as H1 by (vm_compute; lia).
  assert (ncols (qa Mock.book) = 3) as H2 by reflexivity.
  split; [exact H1|]. split; [exact H2|].
  destruct (record_question_answer_twice
              "hi" "hello" (Date 2023 2 14) "bye" "goodbye" (Date 2023 2 15)
              Mock.book H1 H2)
    as (wb1 & wb2 & Hrun1 & Hrun2 & _ & _ & _ & Hall).
  exists wb1, wb2. split; [exact Hrun1|]. split; [exact Hrun2|exact Hall].
Defined.

